(** * music.py: provisioning of a Hugging Face Space

    A shallow embedding of [music.py] and the properties of its
    specification.  The script collects its options with [argparse],
    draws a two-character name with the [random] module, and drives the
    Hugging Face client through four calls.

    Conventions of the embedding:
    - a Python [str] is a [string] holding its UTF-8 encoding, so
      [str.encode("utf-8")] only changes the type (to a list of bytes);
      a one-character ASCII [str] inside a list is an [ascii];
    - a Python [int] is a [Z];
    - the [random] module is an interface ([Rng]) whose draws stay below the
      requested bound; the Hugging Face client is an interface ([HfApi])
      that may answer or raise at every call;
    - a run threads a world (generator state, platform state, trace of
      observable events) through a state-and-exception monad. *)

From Stdlib Require Import ZArith Lia Ascii String.
From stdpp Require Import base list strings gmap.

Local Open Scope string_scope.
Local Open Scope Z_scope.

(** ** Exceptions, outcomes and the state-and-exception monad *)

Inductive exn : Type :=
| IndexError
| HubError (msg : string).

(** How a computation ends: it returns, [sys.exit(code)] was called, or an
    exception propagates. *)
Inductive outcome (A : Type) : Type :=
| Ret (a : A)
| Exit (code : Z)
| Raise (e : exn).
Arguments Ret {A} a.
Arguments Exit {A} code.
Arguments Raise {A} e.

Definition M (S A : Type) : Type := S → outcome A * S.

Definition ret {S A} (a : A) : M S A := λ s, (Ret a, s).

Definition bind {S A B} (m : M S A) (k : A → M S B) : M S B :=
  λ s, match m s with
       | (Ret a, s') => k a s'
       | (Exit c, s') => (Exit c, s')
       | (Raise e, s') => (Raise e, s')
       end.

Definition raise {S A} (e : exn) : M S A := λ s, (Raise e, s).
Definition sys_exit {S A} (code : Z) : M S A := λ s, (Exit code, s).

Declare Scope py_scope.
Delimit Scope py_scope with py.
Notation "x <- m ;; k" := (bind m (λ x, k))
  (at level 100, m at next level, right associativity) : py_scope.
Notation "m ;;; k" := (bind m (λ _, k))
  (at level 100, right associativity) : py_scope.
Local Open Scope py_scope.

(** The exit status the operating system sees. *)
Definition exit_status {A} (o : outcome A) : Z :=
  match o with
  | Ret _ => 0
  | Exit c => c
  | Raise _ => 1
  end.

(** ** The [string] module *)

Definition ascii_lowercase : list ascii := list_ascii_of_string "abcdefghijklmnopqrstuvwxyz".
Definition ascii_uppercase : list ascii := list_ascii_of_string "ABCDEFGHIJKLMNOPQRSTUVWXYZ".
Definition ascii_letters : list ascii := (ascii_lowercase ++ ascii_uppercase)%list.
Definition digits : list ascii := list_ascii_of_string "0123456789".

(** [str.join] with the empty separator, on a list of one-character strings. *)
Definition join (l : list ascii) : string := string_of_list_ascii l.

(** Character classes, by code point and independently of the alphabets. *)
Definition is_letter (c : ascii) : bool :=
  let n := nat_of_ascii c in
  ((65 <=? n) && (n <=? 90) || (97 <=? n) && (n <=? 122))%nat.

Definition is_digit (c : ascii) : bool :=
  let n := nat_of_ascii c in ((48 <=? n) && (n <=? 57))%nat.

Definition is_alnum (c : ascii) : bool := is_letter c || is_digit c.

(** ** The [random] module *)

Module Random.

(** A generator state with the two primitive draws the script reaches:
    [_randbelow(n)] (behind [choice] and [shuffle]) and
    [floor(random() * n)] (behind [choices]).  Both stay below [n]. *)
Class Rng (G : Type) : Type := {
  randbelow : nat → G → nat * G;
  randfloor : nat → G → nat * G;
  randbelow_lt : ∀ n g, (0 < n)%nat → ((randbelow n g).1 < n)%nat;
  randfloor_lt : ∀ n g, (0 < n)%nat → ((randfloor n g).1 < n)%nat;
}.

Section ops.
Context {G : Type} `{!Rng G} {A : Type}.

Definition draw (f : nat → G → nat * G) (n : nat) : M G nat :=
  λ g, let '(i, g') := f n g in (Ret i, g').

(** [seq[i]] *)
Definition getitem (x : list A) (i : nat) : M G A :=
  match x !! i with
  | Some a => ret a
  | None => raise IndexError
  end.

(** [random.choice(seq)] *)
Definition choice (population : list A) : M G A :=
  match population with
  | [] => raise IndexError
  | _ => i <- draw randbelow (length population) ;; getitem population i
  end.

(** [random.choices(population, k=k)]: [k] independent draws, in order. *)
Fixpoint choices_nat (population : list A) (k : nat) : M G (list A) :=
  match k with
  | O => ret []
  | S k' =>
      i <- draw randfloor (length population) ;;
      a <- getitem population i ;;
      rest <- choices_nat population k' ;;
      ret (a :: rest)
  end.

Definition choices (population : list A) (k : Z) : M G (list A) :=
  choices_nat population (Z.to_nat k).

(** [x[i], x[j] = x[j], x[i]] *)
Definition swap (x : list A) (i j : nat) : M G (list A) :=
  xj <- getitem x j ;;
  xi <- getitem x i ;;
  ret (<[j:=xi]> (<[i:=xj]> x)).

(** [for i in reversed(range(1, len(x))): j = randbelow(i + 1); swap] *)
Fixpoint shuffle_from (i : nat) (x : list A) : M G (list A) :=
  match i with
  | O => ret x
  | S i' =>
      j <- draw randbelow (i + 1) ;;
      x' <- swap x i j ;;
      shuffle_from i' x'
  end.

(** [random.shuffle(x)] *)
Definition shuffle (x : list A) : M G (list A) :=
  shuffle_from (length x - 1) x.
End ops.

End Random.
Import Random.

(** ** [generate_random_string] *)

Section generate.
Context {G : Type} `{!Rng G}.

Definition generate_random_string (length : Z) : M G string :=
  if length <? 1 then ret ""
  else
    let chars := (ascii_letters ++ digits)%list in
    mandatory_letter <- choice ascii_letters ;;
    remaining_chars <- choices chars (length - 1) ;;
    let full_chars := (remaining_chars ++ [mandatory_letter])%list in
    full_chars <- shuffle full_chars ;;
    ret (join full_chars).
End generate.

(** What a generated name looks like. *)
Definition well_formed_name (n : nat) (s : string) : Prop :=
  String.length s = n
  ∧ Forall (λ c, is_alnum c = true) (list_ascii_of_string s)
  ∧ Exists (λ c, is_letter c = true) (list_ascii_of_string s).

(** ** Python strings and truthiness *)

Definition nl : string := String (ascii_of_nat 10) EmptyString.

(** [bool(s)] for a [str]: only the empty string is false. *)
Definition truthy (s : string) : bool :=
  match s with
  | EmptyString => false
  | String _ _ => true
  end.

(** [bool(v)] for a value that is [None] or a [str]. *)
Definition truthy_opt (v : option string) : bool :=
  match v with
  | None => false
  | Some s => truthy s
  end.

(** [a or b] on strings, and on a value that is [None] or a [str]. *)
Definition or_str (a b : string) : string := if truthy a then a else b.

Definition or_opt (a : option string) (b : string) : string :=
  match a with
  | Some s => or_str s b
  | None => b
  end.

(** How an f-string renders a value that is [None] or a [str]. *)
Definition fmt (v : option string) : string :=
  match v with
  | Some s => s
  | None => "None"
  end.

(** [s.encode("utf-8")]: strings already hold their UTF-8 bytes.  A [str]
    with a lone surrogate, which Python refuses to encode, is not a value of
    [string] here. *)
Definition encode_utf8 (s : string) : list Byte.byte := list_byte_of_string s.

(** The lines of a text, split at line feeds as a file reader does: every
    line feed ends a line, and a last line without one still counts. *)
Fixpoint lines_from (cur : string) (s : string) : list string :=
  match s with
  | EmptyString => if truthy cur then [cur] else []
  | String c rest =>
      if Ascii.eqb c (ascii_of_nat 10) then cur :: lines_from "" rest
      else lines_from (cur ++ String c "") rest
  end.

Definition lines (s : string) : list string := lines_from "" s.

(** [bytes.decode("utf-8")], the inverse of [encode_utf8]. *)
Definition decode_utf8 (b : list Byte.byte) : string := string_of_list_byte b.

Definition no_line_feed (s : string) : bool :=
  forallb (λ c, negb (Ascii.eqb c (ascii_of_nat 10))) (list_ascii_of_string s).

(** ** [argparse]: the options of the command line *)

Module Args.

(** What the command line carries: for each option, its value when the
    option is present.  Every option is declared with [type=str].  A value
    of this type stands for a command line made of declared options, each
    followed by its value; a request for help and a command line the parser
    refuses for its form (an unknown or ambiguous option, an option without
    value) are not values of it. *)
Record cmdline : Type := Cmdline {
  opt_token : option string;
  opt_image : option string;
  opt_git_url : option string;
  opt_git_repo : option string;
  opt_git_branch : option string;
  opt_git_token : option string;
  opt_password : option string;
  opt_webdav_url : option string;
  opt_webdav_user : option string;
  opt_webdav_pass : option string;
  opt_account_id : option string;
  opt_access_key_id : option string;
  opt_secret_access_key : option string;
}.

(** The namespace [parse_args] returns.  [git_repo] and [git_branch] are
    declared without a default and are [None] when absent. *)
Record Namespace : Type := mkNamespace {
  token : string;
  image : string;
  git_url : string;
  git_repo : option string;
  git_branch : option string;
  git_token : string;
  password : string;
  webdav_url : string;
  webdav_user : string;
  webdav_pass : string;
  account_id : string;
  access_key_id : string;
  secret_access_key : string;
}.

(** The required options absent from the command line, in the order of
    their declaration. *)
Definition missing_required (c : cmdline) : list string :=
  ((if opt_token c is None then ["--token"] else [])
   ++ (if opt_git_token c is None then ["--git-token"] else [])
   ++ (if opt_password c is None then ["--password"] else []))%list.

(** [parser.parse_args()]: a missing required option is an error, reported
    with the options that are missing; an absent optional one takes its
    declared default. *)
Definition parse_args (c : cmdline) : list string + Namespace :=
  match opt_token c, opt_git_token c, opt_password c with
  | Some t, Some gt, Some pw =>
      inr {| token := t;
             image := default "" (opt_image c);
             git_url := default "" (opt_git_url c);
             git_repo := opt_git_repo c;
             git_branch := opt_git_branch c;
             git_token := gt;
             password := pw;
             webdav_url := default "" (opt_webdav_url c);
             webdav_user := default "" (opt_webdav_user c);
             webdav_pass := default "" (opt_webdav_pass c);
             account_id := default "" (opt_account_id c);
             access_key_id := default "" (opt_access_key_id c);
             secret_access_key := default "" (opt_secret_access_key c) |}
  | _, _, _ => inl (missing_required c)
  end.

End Args.

(** ** The Hugging Face client and the observable events of a run *)

Module Hub.

(** One entry of [space_secrets]. *)
Record secret : Type := Secret { key : string; value : string }.

(** The platform behind [HfApi]: each call answers or raises and moves the
    platform to a new state.  [whoami] answers a dictionary, of which the
    script reads the entry [name] only. *)
Class HfApi (P : Type) : Type := {
  whoami : P → (exn + gmap string string) * P;
  create_repo :
    string → string → string → list secret → P → option exn * P;
  upload_file :
    string → string → list Byte.byte → string → P → option exn * P;
}.

(** What an observer of a run sees, in order: lines printed on standard
    output, the parser's report on standard error (its usage text and the
    required options that are missing), and calls on the client, each
    with the way it ended ([None]: returned; [Some e]: raised [e]). *)
Inductive event : Type :=
| Stdout (line : string)
| ParserError (missing : list string)
| NewHfApi (token : string)
| Whoami (result : exn + gmap string string)
| CreateRepo (repo_id repo_type space_sdk : string)
    (space_secrets : list secret) (raised : option exn)
| UploadFile (repo_id path_in_repo : string)
    (path_or_fileobj : list Byte.byte) (repo_type : string)
    (raised : option exn).

End Hub.
Import Hub.

Record world (G P : Type) : Type := World {
  rng : G;
  hub : P;
  trace : list event;
}.
Arguments World {G P} rng hub trace.
Arguments rng {G P} w.
Arguments hub {G P} w.
Arguments trace {G P} w.

(** ** The script *)

Section script.
Context {G : Type} `{!Rng G} {P : Type} `{!HfApi P}.

Definition log (e : event) (w : world G P) : world G P :=
  World (rng w) (hub w) (trace w ++ [e]).

(** [print(line)] *)
Definition print (line : string) : M (world G P) unit :=
  λ w, (Ret tt, log (Stdout line) w).

(** Running a computation of the [random] module in the world. *)
Definition with_rng {A} (m : M G A) : M (world G P) A :=
  λ w, let '(o, g') := m (rng w) in (o, World g' (hub w) (trace w)).

(** [HfApi(token=token)]: builds the client, without any request. *)
Definition new_HfApi (token : string) : M (world G P) unit :=
  λ w, (Ret tt, log (NewHfApi token) w).

(** [api.whoami()] *)
Definition api_whoami : M (world G P) (gmap string string) :=
  λ w, let '(r, p') := whoami (hub w) in
       let w' := World (rng w) p' (trace w ++ [Whoami r]) in
       match r with
       | inr user_info => (Ret user_info, w')
       | inl e => (Raise e, w')
       end.

Definition after_call (r : option exn) (w' : world G P) : outcome unit * world G P :=
  match r with
  | None => (Ret tt, w')
  | Some e => (Raise e, w')
  end.

(** [api.create_repo(repo_id=…, repo_type=…, space_sdk=…, space_secrets=…)] *)
Definition api_create_repo (repo_id repo_type space_sdk : string)
    (space_secrets : list secret) : M (world G P) unit :=
  λ w, let '(r, p') := create_repo repo_id repo_type space_sdk space_secrets (hub w) in
       after_call r
         (World (rng w) p'
            (trace w ++ [CreateRepo repo_id repo_type space_sdk space_secrets r])).

(** [api.upload_file(repo_id=…, path_in_repo=…, path_or_fileobj=…, repo_type=…)] *)
Definition api_upload_file (repo_id path_in_repo : string)
    (path_or_fileobj : list Byte.byte) (repo_type : string) : M (world G P) unit :=
  λ w, let '(r, p') := upload_file repo_id path_in_repo path_or_fileobj repo_type (hub w) in
       after_call r
         (World (rng w) p'
            (trace w ++ [UploadFile repo_id path_in_repo path_or_fileobj repo_type r])).

Definition default_image : string := "ghcr.io/zxlwq/music:latest".

(** [image = args.image or "ghcr.io/zxlwq/music:latest"] *)
Definition resolve_image (args : Args.Namespace) : string :=
  or_str (Args.image args) default_image.

(** The f-string assigned to [readme_content]. *)
Definition readme_content (space_name : string) : string :=
  nl ++ "---" ++ nl
  ++ "title: " ++ space_name ++ nl
  ++ "emoji: 😻" ++ nl
  ++ "colorFrom: red" ++ nl
  ++ "colorTo: blue" ++ nl
  ++ "sdk: docker" ++ nl
  ++ "app_port: 3000" ++ nl
  ++ "pinned: false" ++ nl
  ++ "---" ++ nl
  ++ "Check out the configuration reference at https://huggingface.co/docs/hub/spaces-config-reference" ++ nl.

(** The f-string assigned to [dockerfile_content]. *)
Definition dockerfile_content (image : string) : string :=
  "FROM " ++ image ++ nl.

(** The list assigned to [secrets]. *)
Definition secrets (args : Args.Namespace) (git_repo git_branch : string) : list secret :=
  [ Secret "GIT_REPO" git_repo;
    Secret "GIT_TOKEN" (Args.git_token args);
    Secret "GIT_BRANCH" git_branch;
    Secret "GIT_URL" (Args.git_url args);
    Secret "PASSWORD" (Args.password args);
    Secret "WEBDAV_URL" (Args.webdav_url args);
    Secret "WEBDAV_USER" (Args.webdav_user args);
    Secret "WEBDAV_PASS" (Args.webdav_pass args);
    Secret "ACCOUNT_ID" (Args.account_id args);
    Secret "ACCESS_KEY_ID" (Args.access_key_id args);
    Secret "SECRET_ACCESS_KEY" (Args.secret_access_key args) ].

(** [git_repo = args.git_repo or "zxlwq/music"] and
    [git_branch = args.git_branch or "main"] *)
Definition resolve_git_repo (args : Args.Namespace) : string :=
  or_opt (Args.git_repo args) "zxlwq/music".

Definition resolve_git_branch (args : Args.Namespace) : string :=
  or_opt (Args.git_branch args) "main".

(** The body under [if __name__ == "__main__"]. *)
Definition script (args : Args.Namespace) : M (world G P) unit :=
  let token := Args.token args in
  if negb (truthy token) then
    print "Token 不能为空" ;;;
    sys_exit 1
  else
    new_HfApi token ;;;
    user_info <- api_whoami ;;
    if negb (truthy_opt (user_info !! "name")) then
      print "未获取到用户名信息，程序退出。" ;;;
      sys_exit 1
    else
      let userid := user_info !! "name" in
      let image := resolve_image args in
      let git_repo := resolve_git_repo args in
      let git_branch := resolve_git_branch args in
      let password := Args.password args in
      space_name <- with_rng (generate_random_string 2) ;;
      let repoid := fmt userid ++ "/" ++ space_name in
      let readme_content := readme_content space_name in
      let readme_obj := encode_utf8 readme_content in
      let secrets := secrets args git_repo git_branch in
      api_create_repo repoid "space" "docker" secrets ;;;
      api_upload_file repoid "README.md" readme_obj "space" ;;;
      let dockerfile_content := dockerfile_content image in
      api_upload_file repoid "Dockerfile" (encode_utf8 dockerfile_content) "space" ;;;
      print ("Space 创建成功: " ++ repoid).

(** [parser.error]: the report goes to standard error and the process
    exits with status 2. *)
Definition parser_error (missing : list string) : M (world G P) unit :=
  λ w, (Exit 2, log (ParserError missing) w).

(** The whole module: the options are parsed when it is loaded, then the
    body runs. *)
Definition main (c : Args.cmdline) : M (world G P) unit :=
  match Args.parse_args c with
  | inl missing => parser_error missing
  | inr args => script args
  end.

(** A run from a fresh world. *)
Definition run (c : Args.cmdline) (g : G) (p : P) : outcome unit * world G P :=
  main c (World g p []).
End script.

(** ** Reading a trace *)

(** The creation calls of a trace: target and secrets. *)
Definition creations (t : list event) : list (string * list secret) :=
  omap (λ e, match e with
             | CreateRepo repo_id _ _ space_secrets _ => Some (repo_id, space_secrets)
             | _ => None
             end) t.

(** The upload calls of a trace: target, path and content. *)
Definition uploads (t : list event) : list (string * string * list Byte.byte) :=
  omap (λ e, match e with
             | UploadFile repo_id path data _ _ => Some (repo_id, path, data)
             | _ => None
             end) t.

(** The content uploaded under a given path. *)
Definition uploaded (path : string) (t : list event) : list (list Byte.byte) :=
  omap (λ u, if String.eqb u.1.2 path then Some u.2 else None) (uploads t).

(** The targets of the creation and upload calls, in order. *)
Definition call_targets (t : list event) : list string :=
  omap (λ e, match e with
             | CreateRepo repo_id _ _ _ _ => Some repo_id
             | UploadFile repo_id _ _ _ _ => Some repo_id
             | _ => None
             end) t.

Definition is_upload (e : event) : bool :=
  match e with
  | UploadFile _ _ _ _ _ => true
  | _ => false
  end.

(** Output for the user, as opposed to a call on the client. *)
Definition is_diagnostic (e : event) : bool :=
  match e with
  | Stdout _ | ParserError _ => true
  | _ => false
  end.

(** The paths of the upload calls, in order. *)
Definition upload_paths (t : list event) : list string :=
  map (λ u, u.1.2) (uploads t).

(** Every upload event is preceded by a creation that returned. *)
Definition uploads_follow_creation (t : list event) : Prop :=
  ∀ before ev after,
    t = (before ++ ev :: after)%list →
    is_upload ev = true →
    ∃ rid rt sdk secs, CreateRepo rid rt sdk secs None ∈ before.

(** ** The manifest *)

(** A front-matter entry: the text before the first colon-and-space is the
    key, the text after it the value. *)
Fixpoint split_entry (key : string) (s : string) : option (string * string) :=
  match s with
  | EmptyString => None
  | String c rest =>
      match rest with
      | String c' v =>
          if Ascii.eqb c ":" && Ascii.eqb c' " " then Some (key, v)
          else split_entry (key ++ String c "") rest
      | EmptyString => None
      end
  end.

Definition is_delimiter (l : string) : bool := String.eqb l "---".

(** The entries up to the closing delimiter, and the lines after it. *)
Fixpoint entries (ls : list string) : option (list (string * string) * list string) :=
  match ls with
  | [] => None
  | l :: rest =>
      if is_delimiter l then Some ([], rest)
      else match split_entry "" l, entries rest with
           | Some kv, Some (kvs, after) => Some (kv :: kvs, after)
           | _, _ => None
           end
  end.

(** The lines before the opening delimiter, the entries of the block, and
    the lines after the closing delimiter. *)
Fixpoint front_matter (ls : list string) :
    option (list string * list (string * string) * list string) :=
  match ls with
  | [] => None
  | l :: rest =>
      if is_delimiter l then
        match entries rest with
        | Some (kvs, after) => Some ([], kvs, after)
        | None => None
        end
      else
        match front_matter rest with
        | Some (before, kvs, after) => Some (l :: before, kvs, after)
        | None => None
        end
  end.

Definition documentation_line : string :=
  "Check out the configuration reference at https://huggingface.co/docs/hub/spaces-config-reference".

(** ** The shape of every run *)

Section runs.
Context {G : Type} `{!Rng G} {P : Type} `{!HfApi P}.

(** The three calls that provision the space and the closing status line,
    from the platform state [p1] reached after the identity lookup. *)
Inductive provision (args : Args.Namespace) (repoid space_name : string) (p1 : P) :
  outcome unit → P → list event → Prop :=
| creation_raises e p2 :
    create_repo repoid "space" "docker"
      (secrets args (resolve_git_repo args) (resolve_git_branch args)) p1 = (Some e, p2) →
    provision args repoid space_name p1 (Raise e) p2
      [CreateRepo repoid "space" "docker"
         (secrets args (resolve_git_repo args) (resolve_git_branch args)) (Some e)]
| readme_raises e p2 p3 :
    create_repo repoid "space" "docker"
      (secrets args (resolve_git_repo args) (resolve_git_branch args)) p1 = (None, p2) →
    upload_file repoid "README.md" (encode_utf8 (readme_content space_name)) "space" p2
      = (Some e, p3) →
    provision args repoid space_name p1 (Raise e) p3
      [CreateRepo repoid "space" "docker"
         (secrets args (resolve_git_repo args) (resolve_git_branch args)) None;
       UploadFile repoid "README.md" (encode_utf8 (readme_content space_name)) "space"
         (Some e)]
| dockerfile_raises e p2 p3 p4 :
    create_repo repoid "space" "docker"
      (secrets args (resolve_git_repo args) (resolve_git_branch args)) p1 = (None, p2) →
    upload_file repoid "README.md" (encode_utf8 (readme_content space_name)) "space" p2
      = (None, p3) →
    upload_file repoid "Dockerfile"
      (encode_utf8 (dockerfile_content (resolve_image args))) "space" p3 = (Some e, p4) →
    provision args repoid space_name p1 (Raise e) p4
      [CreateRepo repoid "space" "docker"
         (secrets args (resolve_git_repo args) (resolve_git_branch args)) None;
       UploadFile repoid "README.md" (encode_utf8 (readme_content space_name)) "space" None;
       UploadFile repoid "Dockerfile"
         (encode_utf8 (dockerfile_content (resolve_image args))) "space" (Some e)]
| provisioned p2 p3 p4 :
    create_repo repoid "space" "docker"
      (secrets args (resolve_git_repo args) (resolve_git_branch args)) p1 = (None, p2) →
    upload_file repoid "README.md" (encode_utf8 (readme_content space_name)) "space" p2
      = (None, p3) →
    upload_file repoid "Dockerfile"
      (encode_utf8 (dockerfile_content (resolve_image args))) "space" p3 = (None, p4) →
    provision args repoid space_name p1 (Ret tt) p4
      [CreateRepo repoid "space" "docker"
         (secrets args (resolve_git_repo args) (resolve_git_branch args)) None;
       UploadFile repoid "README.md" (encode_utf8 (readme_content space_name)) "space" None;
       UploadFile repoid "Dockerfile"
         (encode_utf8 (dockerfile_content (resolve_image args))) "space" None;
       Stdout ("Space 创建成功: " ++ repoid)].

(** The ways the body of the script can go, from generator state [g] and
    platform state [p], with the outcome and the final world. *)
Inductive script_run (args : Args.Namespace) (g : G) (p : P) :
  outcome unit → world G P → Prop :=
| run_empty_token :
    Args.token args = "" →
    script_run args g p (Exit 1) (World g p [Stdout "Token 不能为空"])
| run_whoami_raises e p1 :
    Args.token args ≠ "" →
    whoami p = (inl e, p1) →
    script_run args g p (Raise e)
      (World g p1 [NewHfApi (Args.token args); Whoami (inl e)])
| run_no_name user_info p1 :
    Args.token args ≠ "" →
    whoami p = (inr user_info, p1) →
    truthy_opt (user_info !! "name") = false →
    script_run args g p (Exit 1)
      (World g p1 [NewHfApi (Args.token args); Whoami (inr user_info);
                   Stdout "未获取到用户名信息，程序退出。"])
| run_provision user_info p1 name space_name g1 o p' calls :
    Args.token args ≠ "" →
    whoami p = (inr user_info, p1) →
    user_info !! "name" = Some name →
    name ≠ "" →
    generate_random_string 2 g = (Ret space_name, g1) →
    well_formed_name 2 space_name →
    provision args (name ++ "/" ++ space_name) space_name p1 o p' calls →
    script_run args g p o
      (World g1 p' (NewHfApi (Args.token args) :: Whoami (inr user_info) :: calls)).
End runs.

(** ** Concrete generator, platform and command lines, for running the model *)

(** A counter that is reduced modulo the bound and advanced by a fixed
    stride at every draw. *)
Module CounterRng.
Definition step (n : nat) (g : nat) : nat * nat := ((g `mod` n)%nat, (g + 7)%nat).

Definition step_lt (n g : nat) (Hn : (0 < n)%nat) : ((step n g).1 < n)%nat :=
Nat.mod_upper_bound g n (proj2 (Nat.neq_0_lt_0 n) Hn).

#[export] Instance counter_rng : Rng nat :=
{| randbelow := step; randfloor := step;
   randbelow_lt := step_lt; randfloor_lt := step_lt |}.
End CounterRng.
Import CounterRng.

(** The platform answers from a fixed script. *)
Module FakeHub.
(** The platform answers from a fixed script: the identity it reports, how
    the creation ends, and how the upload of each path ends. *)
Record fake : Type := Fake {
  identity : exn + gmap string string;
  creation : option exn;
  upload : string → option exn;
}.

#[export] Instance fake_api : HfApi fake :=
  {| whoami p := (identity p, p);
     create_repo _ _ _ _ p := (creation p, p);
     upload_file _ path _ _ p := (upload p path, p) |}.

Definition alice : gmap string string := {[ "name" := "alice" ]}.

(** Everything succeeds, for the account [alice]. *)
Definition healthy : fake := Fake (inr alice) None (λ _, None).

(** The identity carries no [name]. *)
Definition anonymous : fake := Fake (inr ∅) None (λ _, None).

(** The identity carries an empty [name]. *)
Definition unnamed : fake := Fake (inr {[ "name" := "" ]}) None (λ _, None).

(** The creation is refused. *)
Definition conflicting : fake :=
  Fake (inr alice) (Some (HubError "409 Conflict")) (λ _, None).

(** The upload of the Dockerfile fails. *)
Definition flaky : fake :=
  Fake (inr alice) None
    (λ path, if String.eqb path "Dockerfile" then Some (HubError "502") else None).
End FakeHub.
Import FakeHub.

(** The command line [--token T --git-token G --password P]. *)
Definition minimal_cmdline : Args.cmdline :=
  {| Args.opt_token := Some "T"; Args.opt_image := None; Args.opt_git_url := None;
     Args.opt_git_repo := None; Args.opt_git_branch := None;
     Args.opt_git_token := Some "G"; Args.opt_password := Some "P";
     Args.opt_webdav_url := None; Args.opt_webdav_user := None;
     Args.opt_webdav_pass := None; Args.opt_account_id := None;
     Args.opt_access_key_id := None; Args.opt_secret_access_key := None |}.

Definition with_token (t : option string) (c : Args.cmdline) : Args.cmdline :=
  {| Args.opt_token := t; Args.opt_image := Args.opt_image c;
     Args.opt_git_url := Args.opt_git_url c;
     Args.opt_git_repo := Args.opt_git_repo c;
     Args.opt_git_branch := Args.opt_git_branch c;
     Args.opt_git_token := Args.opt_git_token c;
     Args.opt_password := Args.opt_password c;
     Args.opt_webdav_url := Args.opt_webdav_url c;
     Args.opt_webdav_user := Args.opt_webdav_user c;
     Args.opt_webdav_pass := Args.opt_webdav_pass c;
     Args.opt_account_id := Args.opt_account_id c;
     Args.opt_access_key_id := Args.opt_access_key_id c;
     Args.opt_secret_access_key := Args.opt_secret_access_key c |}.

Definition with_image (i : option string) (c : Args.cmdline) : Args.cmdline :=
  {| Args.opt_token := Args.opt_token c; Args.opt_image := i;
     Args.opt_git_url := Args.opt_git_url c;
     Args.opt_git_repo := Args.opt_git_repo c;
     Args.opt_git_branch := Args.opt_git_branch c;
     Args.opt_git_token := Args.opt_git_token c;
     Args.opt_password := Args.opt_password c;
     Args.opt_webdav_url := Args.opt_webdav_url c;
     Args.opt_webdav_user := Args.opt_webdav_user c;
     Args.opt_webdav_pass := Args.opt_webdav_pass c;
     Args.opt_account_id := Args.opt_account_id c;
     Args.opt_access_key_id := Args.opt_access_key_id c;
     Args.opt_secret_access_key := Args.opt_secret_access_key c |}.

(** The namespace parsed from [minimal_cmdline] (and from the same command
    line with an empty image option). *)
Definition minimal_args : Args.Namespace :=
  {| Args.token := "T"; Args.image := ""; Args.git_url := "";
     Args.git_repo := None; Args.git_branch := None;
     Args.git_token := "G"; Args.password := "P";
     Args.webdav_url := ""; Args.webdav_user := ""; Args.webdav_pass := "";
     Args.account_id := ""; Args.access_key_id := "";
     Args.secret_access_key := "" |}.

Definition with_args_image (i : string) (a : Args.Namespace) : Args.Namespace :=
  {| Args.token := Args.token a; Args.image := i; Args.git_url := Args.git_url a;
     Args.git_repo := Args.git_repo a; Args.git_branch := Args.git_branch a;
     Args.git_token := Args.git_token a; Args.password := Args.password a;
     Args.webdav_url := Args.webdav_url a; Args.webdav_user := Args.webdav_user a;
     Args.webdav_pass := Args.webdav_pass a;
     Args.account_id := Args.account_id a;
     Args.access_key_id := Args.access_key_id a;
     Args.secret_access_key := Args.secret_access_key a |}.

(** An image option that carries a second line. *)
Definition two_line_image : string := "alpine" ++ nl ++ "RUN true".

(** ** Further readings of a run *)

(** The exception an event records, when the call it records raised. *)
Definition raised_of (e : event) : option exn :=
  match e with
  | Whoami (inl e) => Some e
  | CreateRepo _ _ _ _ r => r
  | UploadFile _ _ _ _ r => r
  | _ => None
  end.

(** The name of the client operation an event records; an upload is named
    with the path it writes. *)
Definition call_name (e : event) : option string :=
  match e with
  | NewHfApi _ => Some "HfApi"
  | Whoami _ => Some "whoami"
  | CreateRepo _ _ _ _ _ => Some "create_repo"
  | UploadFile _ path _ _ _ => Some ("upload_file " ++ path)
  | _ => None
  end.

(** The lines printed on standard output, in order. *)
Definition stdout_lines (t : list event) : list string :=
  omap (λ e, match e with Stdout line => Some line | _ => None end) t.

(** The command line in which every optional option that is absent is given
    with the empty string as its value. *)
Definition fill_optional (c : Args.cmdline) : Args.cmdline :=
  {| Args.opt_token := Args.opt_token c;
     Args.opt_image := Some (default "" (Args.opt_image c));
     Args.opt_git_url := Some (default "" (Args.opt_git_url c));
     Args.opt_git_repo := Some (default "" (Args.opt_git_repo c));
     Args.opt_git_branch := Some (default "" (Args.opt_git_branch c));
     Args.opt_git_token := Args.opt_git_token c;
     Args.opt_password := Args.opt_password c;
     Args.opt_webdav_url := Some (default "" (Args.opt_webdav_url c));
     Args.opt_webdav_user := Some (default "" (Args.opt_webdav_user c));
     Args.opt_webdav_pass := Some (default "" (Args.opt_webdav_pass c));
     Args.opt_account_id := Some (default "" (Args.opt_account_id c));
     Args.opt_access_key_id := Some (default "" (Args.opt_access_key_id c));
     Args.opt_secret_access_key := Some (default "" (Args.opt_secret_access_key c)) |}.

(** A command line with every option present and non-empty. *)
Definition full_cmdline : Args.cmdline :=
  {| Args.opt_token := Some "hf_T"; Args.opt_image := Some "nginx:1.27";
     Args.opt_git_url := Some "https://proxy.example";
     Args.opt_git_repo := Some "me/fork"; Args.opt_git_branch := Some "dev";
     Args.opt_git_token := Some "G"; Args.opt_password := Some "P";
     Args.opt_webdav_url := Some "https://dav.example";
     Args.opt_webdav_user := Some "u"; Args.opt_webdav_pass := Some "w";
     Args.opt_account_id := Some "acc"; Args.opt_access_key_id := Some "kid";
     Args.opt_secret_access_key := Some "sak" |}.

(** The namespace parsed from [full_cmdline]. *)
Definition full_args : Args.Namespace :=
  {| Args.token := "hf_T"; Args.image := "nginx:1.27";
     Args.git_url := "https://proxy.example";
     Args.git_repo := Some "me/fork"; Args.git_branch := Some "dev";
     Args.git_token := "G"; Args.password := "P";
     Args.webdav_url := "https://dav.example";
     Args.webdav_user := "u"; Args.webdav_pass := "w";
     Args.account_id := "acc"; Args.access_key_id := "kid";
     Args.secret_access_key := "sak" |}.

(** The namespace of a command line whose token is given empty. *)
Definition empty_token_args : Args.Namespace :=
  {| Args.token := ""; Args.image := ""; Args.git_url := "";
     Args.git_repo := None; Args.git_branch := None;
     Args.git_token := "G"; Args.password := "P";
     Args.webdav_url := ""; Args.webdav_user := ""; Args.webdav_pass := "";
     Args.account_id := ""; Args.access_key_id := "";
     Args.secret_access_key := "" |}.

(** A platform whose identity lookup fails. *)
Definition unreachable : fake := Fake (inl (HubError "401 Unauthorized")) None (λ _, None).

(** A platform on which the upload of the manifest fails. *)
Definition readonly : fake :=
  Fake (inr alice) None
    (λ path, if String.eqb path "README.md" then Some (HubError "403") else None).

(** * Properties *)

(** From [H : e ∈ [e1; …; en]] on an explicit list: the elements that cannot
    be [e] are dropped, and the goal is closed when none is left. *)
Ltac explicit_elem_of H :=
  repeat (apply elem_of_cons in H as [?|H]; [by simplify_eq|]);
  try (by apply elem_of_nil in H).

(** ** Properties of the [random] operations *)

Section random_facts.
Context {G : Type} `{!Rng G} {A : Type}.
Implicit Types (x population : list A) (g : G).

Lemma draw_randbelow n g :
  draw randbelow n g = (Ret (randbelow n g).1, (randbelow n g).2).
Proof. unfold draw. by destruct (randbelow n g). Qed.

Lemma draw_randfloor n g :
  draw randfloor n g = (Ret (randfloor n g).1, (randfloor n g).2).
Proof. unfold draw. by destruct (randfloor n g). Qed.

Lemma getitem_lookup x i a g : x !! i = Some a → getitem x i g = (Ret a, g).
Proof. unfold getitem. by intros ->. Qed.

Lemma getitem_lt x i g :
  (i < length x)%nat → ∃ a, x !! i = Some a ∧ getitem x i g = (Ret a, g).
Proof.
  intros [a Ha]%lookup_lt_is_Some_2. exists a. split; [done|].
  by apply getitem_lookup.
Qed.

Lemma choice_elem population g :
  population ≠ [] →
  ∃ a g', choice population g = (Ret a, g') ∧ a ∈ population.
Proof.
  intros Hne.
  assert (0 < length population)%nat as Hlen
    by (destruct population; [done | simpl; lia]).
  destruct (getitem_lt population (randbelow (length population) g).1
              (randbelow (length population) g).2) as (a & Ha & Hget).
  { by apply randbelow_lt. }
  exists a, (randbelow (length population) g).2. split.
  - destruct population as [|a0 rest]; [done|].
    unfold choice, bind. by rewrite draw_randbelow, Hget.
  - by eapply list_elem_of_lookup_2.
Qed.

Lemma choices_nat_elem population k g :
  population ≠ [] →
  ∃ l g', choices_nat population k g = (Ret l, g')
          ∧ length l = k ∧ Forall (λ a, a ∈ population) l.
Proof.
  intros Hne.
  assert (0 < length population)%nat as Hlen
    by (destruct population; [done | simpl; lia]).
  revert g. induction k as [|k IH]; intros g.
  - exists [], g. by repeat split.
  - destruct (getitem_lt population (randfloor (length population) g).1
                (randfloor (length population) g).2) as (a & Ha & Hget).
    { by apply randfloor_lt. }
    destruct (IH (randfloor (length population) g).2) as (l & g' & Hrun & Hl & Hall).
    exists (a :: l), g'. split; [|split].
    + simpl. unfold bind at 1. rewrite draw_randfloor.
      unfold bind at 1. rewrite Hget.
      unfold bind at 1. by rewrite Hrun.
    + simpl. by rewrite Hl.
    + constructor; [|done]. by eapply list_elem_of_lookup_2.
Qed.

Lemma swap_perm x i j g :
  (i < length x)%nat → (j < length x)%nat →
  ∃ x', swap x i j g = (Ret x', g) ∧ x' ≡ₚ x.
Proof.
  intros Hi Hj.
  destruct (getitem_lt x i g Hi) as (xi & Hxi & Hgi).
  destruct (getitem_lt x j g Hj) as (xj & Hxj & Hgj).
  exists (<[j:=xi]> (<[i:=xj]> x)). split.
  - unfold swap, bind. by rewrite Hgj, Hgi.
  - by apply Permutation_insert_swap.
Qed.

Lemma shuffle_from_perm i x g :
  (i < length x)%nat →
  ∃ x' g', shuffle_from i x g = (Ret x', g') ∧ x' ≡ₚ x.
Proof.
  revert x g. induction i as [|i IH]; intros x g Hi.
  - by exists x, g.
  - pose proof (randbelow_lt (S i + 1) g ltac:(lia)) as Hj.
    destruct (swap_perm x (S i) (randbelow (S i + 1) g).1
                (randbelow (S i + 1) g).2) as (x1 & Hswap & Hperm1);
      [lia..|].
    destruct (IH x1 (randbelow (S i + 1) g).2) as (x2 & g2 & Hrun & Hperm2).
    { apply Permutation_length in Hperm1. lia. }
    exists x2, g2. split.
    + cbn [shuffle_from]. unfold bind at 1. rewrite draw_randbelow.
      unfold bind at 1. by rewrite Hswap.
    + by rewrite Hperm2.
Qed.

Lemma shuffle_perm x g :
  ∃ x' g', shuffle x g = (Ret x', g') ∧ x' ≡ₚ x.
Proof.
  unfold shuffle. destruct x as [|a x].
  - by exists [], g.
  - apply shuffle_from_perm. simpl. lia.
Qed.
End random_facts.

(** ** Properties of [generate_random_string] *)

Lemma join_length (l : list ascii) : String.length (join l) = length l.
Proof. induction l as [|c l IH]; simpl; [done | by rewrite IH]. Qed.

Lemma ascii_letters_are_letters c : c ∈ ascii_letters → is_letter c = true.
Proof.
  intros Hc%list_elem_of_In. revert c Hc. apply forallb_forall. reflexivity.
Qed.

Lemma chars_are_alnum c : c ∈ (ascii_letters ++ digits)%list → is_alnum c = true.
Proof.
  intros Hc%list_elem_of_In. revert c Hc. apply forallb_forall. reflexivity.
Qed.

Lemma letter_is_alnum c : is_letter c = true → is_alnum c = true.
Proof. unfold is_alnum. by intros ->. Qed.

Section generate_facts.
Context {G : Type} `{!Rng G}.

Lemma generate_random_string_lt_1 (length : Z) (g : G) :
  length < 1 → generate_random_string length g = (Ret "", g).
Proof.
  intros Hlt. unfold generate_random_string.
  by destruct (Z.ltb_spec length 1) as [_|?]; [|lia].
Qed.

Lemma generate_random_string_ge_1 (length : Z) (g : G) :
  1 <= length →
  ∃ s g', generate_random_string length g = (Ret s, g')
          ∧ well_formed_name (Z.to_nat length) s.
Proof.
  intros Hge. unfold generate_random_string.
  destruct (Z.ltb_spec length 1) as [?|_]; [lia|].
  destruct (choice_elem ascii_letters g) as (m & g1 & Hm & Hin); [done|].
  destruct (choices_nat_elem (ascii_letters ++ digits)%list
              (Z.to_nat (length - 1)) g1) as (r & g2 & Hr & Hlen & Hall); [done|].
  destruct (shuffle_perm (r ++ [m])%list g2) as (f & g3 & Hf & Hperm).
  exists (join f), g3. split.
  - unfold bind at 1. rewrite Hm.
    unfold bind at 1. unfold choices. rewrite Hr.
    unfold bind. by rewrite Hf.
  - unfold well_formed_name, join.
    rewrite join_length, list_ascii_of_string_of_list_ascii, Hperm.
    split; [|split].
    + rewrite length_app, Hlen. simpl. lia.
    + apply Forall_app. split.
      * eapply Forall_impl; [exact Hall|]. intros c Hc. by apply chars_are_alnum.
      * repeat constructor. by apply letter_is_alnum, ascii_letters_are_letters.
    + apply Exists_app. right. constructor. by apply ascii_letters_are_letters.
Qed.
End generate_facts.

(** C1.  For every requested length of at least 1, [generate_random_string]
    returns a string of exactly that length, made only of ASCII letters and
    digits, with at least one letter; for a length of 0 or below it returns
    the empty string (and draws nothing). *)
Theorem generate_random_string_spec {G : Type} `{!Rng G} (length : Z) (g : G) :
  (1 <= length →
   ∃ s g', generate_random_string length g = (Ret s, g')
           ∧ Z.of_nat (String.length s) = length
           ∧ Forall (λ c, is_alnum c = true) (list_ascii_of_string s)
           ∧ Exists (λ c, is_letter c = true) (list_ascii_of_string s))
  ∧ (length < 1 → generate_random_string length g = (Ret "", g)).
Proof.
  split.
  - intros Hge.
    destruct (generate_random_string_ge_1 length g Hge) as (s & g' & Hrun & Hlen & Hall & Hex).
    exists s, g'. repeat split; [done| |done|done]. rewrite Hlen. lia.
  - apply generate_random_string_lt_1.
Qed.

Lemma generate_random_string_spec_witness :
  (1 <= 2 ∧
   ∃ s g', generate_random_string 2 47%nat = (Ret s, g')
           ∧ Z.of_nat (String.length s) = 2
           ∧ Forall (λ c, is_alnum c = true) (list_ascii_of_string s)
           ∧ Exists (λ c, is_letter c = true) (list_ascii_of_string s))
  ∧ (-3 < 1 ∧ generate_random_string (-3) 47%nat = (Ret "", 47%nat)).
Proof.
  split; (split; [lia|]).
  - apply (proj1 (generate_random_string_spec 2 47%nat)). lia.
  - apply (proj2 (generate_random_string_spec (-3) 47%nat)). lia.
Defined.

Example generate_2_from_47 : generate_random_string 2 47%nat = (Ret "2V", 68%nat).
Proof. reflexivity. Qed.

Example generate_5_from_61 : generate_random_string 5 61%nat = (Ret "gjuBn", 124%nat).
Proof. reflexivity. Qed.

(** ** Every run has one of the shapes *)

Section run_facts.
Context {G : Type} `{!Rng G} {P : Type} `{!HfApi P}.

Lemma truthy_false s : truthy s = false ↔ s = "".
Proof. by destruct s. Qed.

Lemma truthy_true s : truthy s = true ↔ s ≠ "".
Proof. by destruct s. Qed.

Lemma truthy_opt_true v :
  truthy_opt v = true → ∃ s, v = Some s ∧ s ≠ "".
Proof.
  destruct v as [s|]; [|done]. intros Hs%truthy_true. by exists s.
Qed.

Lemma provision_total args repoid space_name (g1 : G) (p1 : P) (t : list event) :
  ∃ o p' calls,
    provision args repoid space_name p1 o p' calls
    ∧ ( api_create_repo repoid "space" "docker"
          (secrets args (resolve_git_repo args) (resolve_git_branch args)) ;;;
        api_upload_file repoid "README.md"
          (encode_utf8 (readme_content space_name)) "space" ;;;
        api_upload_file repoid "Dockerfile"
          (encode_utf8 (dockerfile_content (resolve_image args))) "space" ;;;
        print ("Space 创建成功: " ++ repoid) ) (World g1 p1 t)
      = (o, World g1 p' (t ++ calls)).
Proof.
  unfold bind, api_create_repo, api_upload_file, print, log, after_call.
  cbn [rng hub trace].
  destruct (create_repo repoid _ _ _ p1) as [[e|] p2] eqn:Hc; cbn [rng hub trace].
  { eexists _, _, _. split; [by apply creation_raises|done]. }
  destruct (upload_file repoid "README.md" _ _ p2) as [[e|] p3] eqn:Hr; cbn [rng hub trace].
  { eexists _, _, _. split; [by eapply readme_raises|].
    by rewrite <- app_assoc. }
  destruct (upload_file repoid "Dockerfile" _ _ p3) as [[e|] p4] eqn:Hd; cbn [rng hub trace].
  { eexists _, _, _. split; [by eapply dockerfile_raises|].
    by rewrite <- !app_assoc. }
  eexists _, _, _. split; [by eapply provisioned|].
  by rewrite <- !app_assoc.
Qed.

(** Every run of the body is one of the runs above. *)
Lemma script_run_total args g p o w :
  script args (World g p []) = (o, w) → script_run args g p o w.
Proof.
  unfold script.
  destruct (truthy (Args.token args)) eqn:Htok; cbn [negb].
  2:{ apply truthy_false in Htok. intros [= <- <-]. by constructor. }
  apply truthy_true in Htok.
  unfold bind at 1. unfold new_HfApi at 1. unfold log. cbn [rng hub trace app].
  unfold bind at 1. unfold api_whoami at 1. cbn [rng hub trace app].
  destruct (whoami p) as [[e|user_info] p1] eqn:Hwho.
  { intros [= <- <-]. by constructor. }
  destruct (truthy_opt (user_info !! "name")) eqn:Hname; cbn [negb].
  2:{ intros [= <- <-]. by constructor. }
  destruct (truthy_opt_true _ Hname) as (name & Hlook & Hne).
  destruct (generate_random_string_ge_1 2 g ltac:(lia))
    as (space_name & g1 & Hgen & Hwf).
  unfold bind at 1. unfold with_rng at 1. cbn [rng hub trace]. rewrite Hgen.
  destruct (provision_total args (fmt (user_info !! "name") ++ "/" ++ space_name)
              space_name g1 p1
              [NewHfApi (Args.token args); Whoami (inr user_info)])
    as (o' & p' & calls & Hprov & ->).
  intros [= <- <-].
  rewrite Hlook in Hprov. cbn [fmt fst snd app] in *.
  by eapply run_provision.
Qed.

(** Every run of the module: the parser refuses the command line, or the
    body runs. *)
Lemma run_total c g p o w :
  run c g p = (o, w) →
  (∃ missing, Args.parse_args c = inl missing
              ∧ o = Exit 2 ∧ w = World g p [ParserError missing])
  ∨ (∃ args, Args.parse_args c = inr args ∧ script_run args g p o w).
Proof.
  unfold run, main. destruct (Args.parse_args c) as [missing|args].
  - intros [= <- <-]. left. by exists missing.
  - intros Hrun%script_run_total. right. by exists args.
Qed.
End run_facts.

(** ** The secrets of the created space *)

Section secrets_facts.
Context {G : Type} `{!Rng G} {P : Type} `{!HfApi P}.

Lemma provision_success args repoid space_name (p1 p' : P) calls :
  provision args repoid space_name p1 (Ret tt) p' calls →
  calls =
    [CreateRepo repoid "space" "docker"
       (secrets args (resolve_git_repo args) (resolve_git_branch args)) None;
     UploadFile repoid "README.md" (encode_utf8 (readme_content space_name)) "space" None;
     UploadFile repoid "Dockerfile"
       (encode_utf8 (dockerfile_content (resolve_image args))) "space" None;
     Stdout ("Space 创建成功: " ++ repoid)].
Proof. by inversion 1. Qed.

Lemma or_str_keeps_nonempty (a b : string) : a ≠ "" → or_str a b = a.
Proof. by destruct a. Qed.

Lemma parse_args_inr c args :
  Args.parse_args c = inr args →
  ∃ t gt pw,
    Args.opt_token c = Some t ∧ Args.opt_git_token c = Some gt
    ∧ Args.opt_password c = Some pw
    ∧ args = {| Args.token := t;
                Args.image := default "" (Args.opt_image c);
                Args.git_url := default "" (Args.opt_git_url c);
                Args.git_repo := Args.opt_git_repo c;
                Args.git_branch := Args.opt_git_branch c;
                Args.git_token := gt;
                Args.password := pw;
                Args.webdav_url := default "" (Args.opt_webdav_url c);
                Args.webdav_user := default "" (Args.opt_webdav_user c);
                Args.webdav_pass := default "" (Args.opt_webdav_pass c);
                Args.account_id := default "" (Args.opt_account_id c);
                Args.access_key_id := default "" (Args.opt_access_key_id c);
                Args.secret_access_key := default "" (Args.opt_secret_access_key c) |}.
Proof.
  unfold Args.parse_args.
  destruct (Args.opt_token c) as [t|], (Args.opt_git_token c) as [gt|],
    (Args.opt_password c) as [pw|]; try done.
  intros [= <-]. by exists t, gt, pw.
Qed.

(** C2.  On a successful run there is exactly one creation call, and the
    secrets attached to it are the eleven fixed keys, in this order.
    PASSWORD and GIT_TOKEN carry the supplied password and git token.
    GIT_REPO carries the supplied repository when one is supplied and not
    empty, and zxlwq/music when the option is absent or empty; GIT_BRANCH
    likewise, with main.  The other seven carry the supplied value, and the
    empty string when the option is absent. *)
Theorem secrets_spec (c : Args.cmdline) (g : G) (p : P) (w : world G P) :
  run c g p = (Ret tt, w) →
  ∃ repoid git_repo git_token git_branch password,
    Args.opt_git_token c = Some git_token
    ∧ Args.opt_password c = Some password
    ∧ (Args.opt_git_repo c = None ∨ Args.opt_git_repo c = Some "" →
       git_repo = "zxlwq/music")
    ∧ (∀ s, Args.opt_git_repo c = Some s → s ≠ "" → git_repo = s)
    ∧ (Args.opt_git_branch c = None ∨ Args.opt_git_branch c = Some "" →
       git_branch = "main")
    ∧ (∀ s, Args.opt_git_branch c = Some s → s ≠ "" → git_branch = s)
    ∧ creations (trace w) =
        [(repoid,
          [ Secret "GIT_REPO" git_repo;
            Secret "GIT_TOKEN" git_token;
            Secret "GIT_BRANCH" git_branch;
            Secret "GIT_URL" (default "" (Args.opt_git_url c));
            Secret "PASSWORD" password;
            Secret "WEBDAV_URL" (default "" (Args.opt_webdav_url c));
            Secret "WEBDAV_USER" (default "" (Args.opt_webdav_user c));
            Secret "WEBDAV_PASS" (default "" (Args.opt_webdav_pass c));
            Secret "ACCOUNT_ID" (default "" (Args.opt_account_id c));
            Secret "ACCESS_KEY_ID" (default "" (Args.opt_access_key_id c));
            Secret "SECRET_ACCESS_KEY" (default "" (Args.opt_secret_access_key c)) ])].
Proof.
  intros [(missing & _ & [=] & _) | (args & Hparse & Hrun)]%run_total.
  destruct (parse_args_inr c args Hparse) as (t & gt & pw & _ & Hgt & Hpw & ->).
  inversion Hrun as [| | |user_info p1 name space_name g1 o p' calls
                           _ _ _ _ _ _ Hprov]; subst.
  apply provision_success in Hprov as ->.
  exists (name ++ "/" ++ space_name),
    (or_opt (Args.opt_git_repo c) "zxlwq/music"), gt,
    (or_opt (Args.opt_git_branch c) "main"), pw.
  split_and!; try done.
  - by intros [-> | ->].
  - intros s -> Hs. by apply or_str_keeps_nonempty.
  - by intros [-> | ->].
  - intros s -> Hs. by apply or_str_keeps_nonempty.
Qed.
End secrets_facts.

Lemma secrets_spec_witness :
  (∃ repoid,
     creations (trace (run full_cmdline 47%nat healthy).2) =
       [(repoid,
         [ Secret "GIT_REPO" "me/fork"; Secret "GIT_TOKEN" "G";
           Secret "GIT_BRANCH" "dev"; Secret "GIT_URL" "https://proxy.example";
           Secret "PASSWORD" "P"; Secret "WEBDAV_URL" "https://dav.example";
           Secret "WEBDAV_USER" "u"; Secret "WEBDAV_PASS" "w";
           Secret "ACCOUNT_ID" "acc"; Secret "ACCESS_KEY_ID" "kid";
           Secret "SECRET_ACCESS_KEY" "sak" ])])
  ∧ (∃ repoid,
       creations (trace (run minimal_cmdline 47%nat healthy).2) =
         [(repoid,
           [ Secret "GIT_REPO" "zxlwq/music"; Secret "GIT_TOKEN" "G";
             Secret "GIT_BRANCH" "main"; Secret "GIT_URL" "";
             Secret "PASSWORD" "P"; Secret "WEBDAV_URL" "";
             Secret "WEBDAV_USER" ""; Secret "WEBDAV_PASS" "";
             Secret "ACCOUNT_ID" ""; Secret "ACCESS_KEY_ID" "";
             Secret "SECRET_ACCESS_KEY" "" ])]).
Proof.
  assert (run full_cmdline 47%nat healthy
          = (Ret tt, (run full_cmdline 47%nat healthy).2))
    as Hfull by (vm_compute; reflexivity).
  assert (run minimal_cmdline 47%nat healthy
          = (Ret tt, (run minimal_cmdline 47%nat healthy).2))
    as Hminimal by (vm_compute; reflexivity).
  split.
  - destruct (secrets_spec full_cmdline 47%nat healthy _ Hfull)
      as (repoid & git_repo & git_token & git_branch & password
          & Htoken & Hpassword & _ & Hrepo & _ & Hbranch & Hsecrets).
    exists repoid. rewrite Hsecrets.
    rewrite (Hrepo "me/fork" eq_refl ltac:(discriminate)).
    rewrite (Hbranch "dev" eq_refl ltac:(discriminate)).
    injection Htoken as <-. injection Hpassword as <-. reflexivity.
  - destruct (secrets_spec minimal_cmdline 47%nat healthy _ Hminimal)
      as (repoid & git_repo & git_token & git_branch & password
          & Htoken & Hpassword & Hrepo & _ & Hbranch & _ & Hsecrets).
    exists repoid. rewrite Hsecrets.
    rewrite (Hrepo (or_introl eq_refl)), (Hbranch (or_introl eq_refl)).
    injection Htoken as <-. injection Hpassword as <-. reflexivity.
Defined.

Example secrets_of_minimal_run :
  creations (trace (run minimal_cmdline 47%nat healthy).2) =
    [("alice/2V",
      [ Secret "GIT_REPO" "zxlwq/music"; Secret "GIT_TOKEN" "G";
        Secret "GIT_BRANCH" "main"; Secret "GIT_URL" ""; Secret "PASSWORD" "P";
        Secret "WEBDAV_URL" ""; Secret "WEBDAV_USER" ""; Secret "WEBDAV_PASS" "";
        Secret "ACCOUNT_ID" ""; Secret "ACCESS_KEY_ID" "";
        Secret "SECRET_ACCESS_KEY" "" ])].
Proof. vm_compute. reflexivity. Qed.

(** ** The deployment descriptor *)

Section descriptor_facts.
Context {G : Type} `{!Rng G} {P : Type} `{!HfApi P}.

Lemma provision_targets args repoid space_name (p1 p' : P) o calls :
  provision args repoid space_name p1 o p' calls →
  Forall (λ rid, rid = repoid) (call_targets calls).
Proof. inversion 1; subst; cbn; by repeat constructor. Qed.

(** C3.  In every run that reaches a creation or upload call, all these
    calls target one descriptor: the account name answered by the identity
    lookup, then a slash, then the two-character name drawn by a single
    call of [generate_random_string] (the generator is left in the state
    that one call produces).  On full success the calls are the creation
    and the two uploads, and the last line printed carries the
    descriptor. *)
Theorem descriptor_spec (c : Args.cmdline) (g : G) (p : P)
    (o : outcome unit) (w : world G P) :
  run c g p = (o, w) →
  call_targets (trace w) ≠ [] →
  ∃ user_info p1 name space_name,
    whoami p = (inr user_info, p1)
    ∧ user_info !! "name" = Some name
    ∧ generate_random_string 2 g = (Ret space_name, rng w)
    ∧ String.length space_name = 2%nat
    ∧ Forall (λ rid, rid = name ++ "/" ++ space_name) (call_targets (trace w))
    ∧ (o = Ret tt →
       map fst (creations (trace w)) = [name ++ "/" ++ space_name]
       ∧ map fst (uploads (trace w)) =
           [(name ++ "/" ++ space_name, "README.md");
            (name ++ "/" ++ space_name, "Dockerfile")]
       ∧ last (trace w) = Some (Stdout ("Space 创建成功: " ++ name ++ "/" ++ space_name))).
Proof.
  intros [(missing & _ & _ & ->) | (args & _ & Hrun)]%run_total Hcalls; [done|].
  inversion Hrun as [| | |user_info p1 name space_name g1 o' p' calls
                           _ Hwho Hname _ Hgen Hwf Hprov]; subst; try done.
  exists user_info, p1, name, space_name.
  destruct Hwf as (Hlen & _ & _).
  split_and!; try done.
  - cbn. by eapply provision_targets.
  - intros ->. by apply provision_success in Hprov as ->.
Qed.
End descriptor_facts.

Lemma descriptor_spec_witness :
  ∃ user_info p1 name space_name,
    whoami healthy = (inr user_info, p1)
    ∧ user_info !! "name" = Some name
    ∧ generate_random_string 2 47%nat
      = (Ret space_name, rng (run minimal_cmdline 47%nat healthy).2)
    ∧ String.length space_name = 2%nat
    ∧ Forall (λ rid, rid = name ++ "/" ++ space_name)
        (call_targets (trace (run minimal_cmdline 47%nat healthy).2))
    ∧ map fst (creations (trace (run minimal_cmdline 47%nat healthy).2))
      = [name ++ "/" ++ space_name]
    ∧ map fst (uploads (trace (run minimal_cmdline 47%nat healthy).2)) =
        [(name ++ "/" ++ space_name, "README.md");
         (name ++ "/" ++ space_name, "Dockerfile")]
    ∧ last (trace (run minimal_cmdline 47%nat healthy).2)
      = Some (Stdout ("Space 创建成功: " ++ name ++ "/" ++ space_name)).
Proof.
  destruct (descriptor_spec minimal_cmdline 47%nat healthy
              (run minimal_cmdline 47%nat healthy).1
              (run minimal_cmdline 47%nat healthy).2)
    as (user_info & p1 & name & space_name & Hwho & Hname & Hgen & Hlen & Hall & Hok).
  - vm_compute. reflexivity.
  - vm_compute. discriminate.
  - exists user_info, p1, name, space_name.
    split_and!; [done..| | |]; apply Hok; reflexivity.
Defined.

Example descriptor_of_minimal_run :
  call_targets (trace (run minimal_cmdline 47%nat healthy).2)
  = ["alice/2V"; "alice/2V"; "alice/2V"]
  ∧ last (trace (run minimal_cmdline 47%nat healthy).2)
    = Some (Stdout "Space 创建成功: alice/2V").
Proof. vm_compute. by split. Qed.

(** ** Text and lines *)

Lemma append_cons (c : ascii) (s t : string) : String c s ++ t = String c (s ++ t).
Proof. reflexivity. Qed.

Lemma append_nil_r (s : string) : s ++ "" = s.
Proof. induction s as [|c s IH]; [done|]. by rewrite append_cons, IH. Qed.

Lemma append_assoc (s1 s2 s3 : string) : (s1 ++ s2) ++ s3 = s1 ++ (s2 ++ s3).
Proof. induction s1 as [|c s1 IH]; [done|]. by rewrite !append_cons, IH. Qed.

Lemma decode_encode_utf8 (s : string) : decode_utf8 (encode_utf8 s) = s.
Proof. apply string_of_list_byte_of_string. Qed.

Lemma lines_from_cons (cur : string) (c : ascii) (rest : string) :
  lines_from cur (String c rest) =
    if Ascii.eqb c (ascii_of_nat 10) then cur :: lines_from "" rest
    else lines_from (cur ++ String c "") rest.
Proof. reflexivity. Qed.

Lemma no_line_feed_cons (c : ascii) (s : string) :
  no_line_feed (String c s) = negb (Ascii.eqb c (ascii_of_nat 10)) && no_line_feed s.
Proof. reflexivity. Qed.

(** A stretch of text without a line feed, then a line feed: one line. *)
Lemma lines_from_line (cur s rest : string) :
  no_line_feed s = true →
  lines_from cur (s ++ nl ++ rest) = (cur ++ s) :: lines_from "" rest.
Proof.
  revert cur. induction s as [|c s IH]; intros cur Hs.
  - rewrite append_nil_r. reflexivity.
  - rewrite no_line_feed_cons in Hs.
    apply andb_prop in Hs as [Hc Hs]. apply negb_true_iff in Hc.
    rewrite append_cons, lines_from_cons, Hc, IH by done.
    by rewrite append_assoc.
Qed.

Lemma lines_single_line (s : string) :
  no_line_feed s = true → lines (s ++ nl) = [s].
Proof.
  intros Hs. unfold lines.
  rewrite <- (append_nil_r nl), (lines_from_line "" s "" Hs). reflexivity.
Qed.

(** ** The image and the Dockerfile *)

Section image_facts.
Context {G : Type} `{!Rng G} {P : Type} `{!HfApi P}.

Lemma or_str_empty (b : string) : or_str "" b = b.
Proof. reflexivity. Qed.

Lemma or_str_nonempty (a b : string) : a ≠ "" → or_str a b = a.
Proof. by destruct a. Qed.

Lemma resolve_image_absent c args :
  Args.parse_args c = inr args →
  Args.opt_image c = None ∨ Args.opt_image c = Some "" →
  resolve_image args = "ghcr.io/zxlwq/music:latest".
Proof.
  intros (t & gt & pw & _ & _ & _ & ->)%parse_args_inr.
  unfold resolve_image. cbn [Args.image]. by intros [-> | ->].
Qed.

Lemma resolve_image_present c args s :
  Args.parse_args c = inr args →
  Args.opt_image c = Some s → s ≠ "" →
  resolve_image args = s.
Proof.
  intros (t & gt & pw & _ & _ & _ & ->)%parse_args_inr.
  unfold resolve_image. cbn [Args.image]. intros -> Hs. cbn.
  by apply or_str_nonempty.
Qed.

(** C9, amended.  Without an image option, or with an empty one, the
    resolved image is the fixed default; with a non-empty image option it
    is exactly the supplied string. *)
Theorem resolve_image_spec (c : Args.cmdline) (args : Args.Namespace) :
  Args.parse_args c = inr args →
  (Args.opt_image c = None ∨ Args.opt_image c = Some "" →
   resolve_image args = "ghcr.io/zxlwq/music:latest")
  ∧ (∀ s, Args.opt_image c = Some s → s ≠ "" → resolve_image args = s).
Proof.
  intros Hparse. split.
  - by apply resolve_image_absent.
  - intros s. by apply resolve_image_present.
Qed.

Lemma provision_dockerfile args repoid space_name (p1 p' : P) o calls data :
  provision args repoid space_name p1 o p' calls →
  data ∈ uploaded "Dockerfile" calls →
  data = encode_utf8 (dockerfile_content (resolve_image args)).
Proof.
  inversion 1; subst; cbn; intros Hin.
  - by apply elem_of_nil in Hin.
  - by apply elem_of_nil in Hin.
  - by apply list_elem_of_singleton in Hin.
  - by apply list_elem_of_singleton in Hin.
Qed.

(** C4, amended.  In every run, the content uploaded as Dockerfile is the
    text FROM, a space and the resolved image, ended by one line feed.  It
    is that single line whenever the resolved image holds no line feed,
    and without an image option it is the single line
    FROM ghcr.io/zxlwq/music:latest. *)
Theorem dockerfile_spec (c : Args.cmdline) (g : G) (p : P)
    (o : outcome unit) (w : world G P) (args : Args.Namespace)
    (data : list Byte.byte) :
  run c g p = (o, w) →
  Args.parse_args c = inr args →
  data ∈ uploaded "Dockerfile" (trace w) →
  data = encode_utf8 ("FROM " ++ resolve_image args ++ nl)
  ∧ (no_line_feed (resolve_image args) = true →
     lines (decode_utf8 data) = ["FROM " ++ resolve_image args])
  ∧ (Args.opt_image c = None →
     lines (decode_utf8 data) = ["FROM ghcr.io/zxlwq/music:latest"]).
Proof.
  intros [(missing & Hparse & _ & ->) | (args' & Hparse & Hrun)]%run_total Hargs Hin;
    rewrite Hparse in Hargs; [done|]. injection Hargs as ->.
  assert (data = encode_utf8 (dockerfile_content (resolve_image args))) as ->.
  { inversion Hrun as [| | |user_info p1 name space_name g1 o' p' calls
                             _ _ _ _ _ _ Hprov]; subst;
      try (by apply elem_of_nil in Hin).
    by eapply provision_dockerfile. }
  unfold dockerfile_content. split_and!; [done| |].
  - intros Himg. rewrite decode_encode_utf8.
    rewrite <- append_assoc. apply lines_single_line.
    unfold no_line_feed in *. cbn. exact Himg.
  - intros Hnone. rewrite decode_encode_utf8.
    rewrite (resolve_image_absent c args Hparse) by (by left).
    reflexivity.
Qed.
End image_facts.

Lemma resolve_image_spec_witness :
  (Args.parse_args minimal_cmdline = inr minimal_args
   ∧ resolve_image minimal_args = "ghcr.io/zxlwq/music:latest")
  ∧ (Args.parse_args (with_image (Some "nginx:1.27") minimal_cmdline)
     = inr (with_args_image "nginx:1.27" minimal_args)
     ∧ resolve_image (with_args_image "nginx:1.27" minimal_args) = "nginx:1.27").
Proof.
  split; (split; [reflexivity|]).
  - apply (proj1 (resolve_image_spec minimal_cmdline minimal_args eq_refl)).
    left. reflexivity.
  - apply (proj2 (resolve_image_spec (with_image (Some "nginx:1.27") minimal_cmdline)
                    (with_args_image "nginx:1.27" minimal_args) eq_refl)
             "nginx:1.27"); [reflexivity | discriminate].
Defined.

Example resolve_image_nginx :
  Args.parse_args (with_image (Some "nginx:1.27") minimal_cmdline)
  = inr (with_args_image "nginx:1.27" minimal_args)
  ∧ resolve_image (with_args_image "nginx:1.27" minimal_args) = "nginx:1.27".
Proof. by split. Qed.

(** C9 as stated fails: an image option that is present and empty does not
    resolve to the supplied (empty) string but to the default. *)
Lemma resolve_image_counterexample :
  Args.opt_image (with_image (Some "") minimal_cmdline) = Some ""
  ∧ Args.parse_args (with_image (Some "") minimal_cmdline) = inr minimal_args
  ∧ resolve_image minimal_args = "ghcr.io/zxlwq/music:latest"
  ∧ resolve_image minimal_args ≠ "".
Proof. by split_and!. Qed.

Lemma dockerfile_spec_witness :
  encode_utf8 ("FROM ghcr.io/zxlwq/music:latest" ++ nl)
    ∈ uploaded "Dockerfile" (trace (run minimal_cmdline 47%nat healthy).2)
  ∧ encode_utf8 ("FROM ghcr.io/zxlwq/music:latest" ++ nl)
    = encode_utf8 ("FROM " ++ resolve_image minimal_args ++ nl)
  ∧ lines (decode_utf8 (encode_utf8 ("FROM ghcr.io/zxlwq/music:latest" ++ nl)))
    = ["FROM " ++ resolve_image minimal_args]
  ∧ lines (decode_utf8 (encode_utf8 ("FROM ghcr.io/zxlwq/music:latest" ++ nl)))
    = ["FROM ghcr.io/zxlwq/music:latest"].
Proof.
  assert (encode_utf8 ("FROM ghcr.io/zxlwq/music:latest" ++ nl)
            ∈ uploaded "Dockerfile" (trace (run minimal_cmdline 47%nat healthy).2))
    as Hin by (vm_compute; constructor).
  assert (run minimal_cmdline 47%nat healthy
          = ((run minimal_cmdline 47%nat healthy).1,
             (run minimal_cmdline 47%nat healthy).2))
    as Hrun by (vm_compute; reflexivity).
  split; [exact Hin|].
  destruct (dockerfile_spec minimal_cmdline 47%nat healthy _ _
              minimal_args _ Hrun eq_refl Hin)
    as (Hdata & Hline & Hdefault).
  split_and!; [exact Hdata | apply Hline; reflexivity | apply Hdefault; reflexivity].
Defined.

(** C4 as stated fails: with an image option that carries a line feed, the
    uploaded Dockerfile has two lines. *)
Lemma dockerfile_counterexample :
  Args.parse_args (with_image (Some two_line_image) minimal_cmdline)
  = inr (with_args_image two_line_image minimal_args)
  ∧ resolve_image (with_args_image two_line_image minimal_args) = two_line_image
  ∧ map (λ data, lines (decode_utf8 data))
      (uploaded "Dockerfile"
         (trace (run (with_image (Some two_line_image) minimal_cmdline)
                   47%nat healthy).2))
    = [["FROM alpine"; "RUN true"]]
  ∧ ["FROM alpine"; "RUN true"]
    ≠ ["FROM " ++ resolve_image (with_args_image two_line_image minimal_args)].
Proof. split_and!; [reflexivity | reflexivity | vm_compute; reflexivity | discriminate]. Qed.

(** ** The manifest *)

Lemma alnum_not_line_feed (c : ascii) :
  is_alnum c = true → Ascii.eqb c (ascii_of_nat 10) = false.
Proof.
  intros Hc. destruct (Ascii.eqb_spec c (ascii_of_nat 10)) as [->|]; [|done].
  discriminate Hc.
Qed.

Lemma alnum_no_line_feed (s : string) :
  Forall (λ c, is_alnum c = true) (list_ascii_of_string s) → no_line_feed s = true.
Proof.
  induction s as [|c s IH]; [done|]. cbn [list_ascii_of_string].
  intros [Hc Hs]%Forall_cons. rewrite no_line_feed_cons, alnum_not_line_feed by done.
  by apply IH.
Qed.

Lemma lines_from_nl (cur rest : string) :
  lines_from cur (nl ++ rest) = cur :: lines_from "" rest.
Proof. reflexivity. Qed.

Lemma readme_lines (space_name : string) :
  no_line_feed space_name = true →
  lines (readme_content space_name) =
    [ ""; "---"; "title: " ++ space_name; "emoji: 😻"; "colorFrom: red";
      "colorTo: blue"; "sdk: docker"; "app_port: 3000"; "pinned: false"; "---";
      documentation_line ].
Proof.
  intros Hs. unfold lines, readme_content.
  rewrite lines_from_nl.
  rewrite (lines_from_line "" "---") by reflexivity.
  rewrite <- (append_assoc "title: " space_name).
  rewrite (lines_from_line "" ("title: " ++ space_name)) by exact Hs.
  reflexivity.
Qed.

Lemma readme_front_matter (space_name : string) :
  front_matter
    [ ""; "---"; "title: " ++ space_name; "emoji: 😻"; "colorFrom: red";
      "colorTo: blue"; "sdk: docker"; "app_port: 3000"; "pinned: false"; "---";
      documentation_line ]
  = Some ([""],
          [ ("title", space_name); ("emoji", "😻"); ("colorFrom", "red");
            ("colorTo", "blue"); ("sdk", "docker"); ("app_port", "3000");
            ("pinned", "false") ],
          [documentation_line]).
Proof. reflexivity. Qed.

Section manifest_facts.
Context {G : Type} `{!Rng G} {P : Type} `{!HfApi P}.

Lemma provision_readme args repoid space_name (p1 p' : P) o calls data :
  provision args repoid space_name p1 o p' calls →
  data ∈ uploaded "README.md" calls →
  data = encode_utf8 (readme_content space_name).
Proof.
  inversion 1; subst; cbn; intros Hin.
  - by apply elem_of_nil in Hin.
  - by apply list_elem_of_singleton in Hin.
  - by apply list_elem_of_singleton in Hin.
  - by apply list_elem_of_singleton in Hin.
Qed.

(** The manifest of a run, if one was uploaded, is [readme_content] at the
    name the run generated. *)
Lemma uploaded_readme c g p o (w : world G P) data :
  run c g p = (o, w) →
  data ∈ uploaded "README.md" (trace w) →
  ∃ space_name,
    generate_random_string 2 g = (Ret space_name, rng w)
    ∧ well_formed_name 2 space_name
    ∧ data = encode_utf8 (readme_content space_name).
Proof.
  intros [(missing & _ & _ & ->) | (args & _ & Hrun)]%run_total Hin.
  { by apply elem_of_nil in Hin. }
  inversion Hrun as [| | |user_info p1 name space_name g1 o' p' calls
                           _ _ _ _ Hgen Hwf Hprov]; subst;
    try (by apply elem_of_nil in Hin).
  exists space_name. split_and!; [done..|]. by eapply provision_readme.
Qed.

(** C5.  In every run, the content uploaded as README.md is a block
    between two delimiter lines with exactly the keys title, emoji,
    colorFrom, colorTo, sdk, app_port and pinned, in this order, where
    title is the generated two-character name, sdk is docker, app_port is
    3000 and pinned is false, followed by one line: the pointer to the
    documentation. *)
Theorem readme_spec (c : Args.cmdline) (g : G) (p : P)
    (o : outcome unit) (w : world G P) (data : list Byte.byte) :
  run c g p = (o, w) →
  data ∈ uploaded "README.md" (trace w) →
  ∃ space_name,
    generate_random_string 2 g = (Ret space_name, rng w)
    ∧ String.length space_name = 2%nat
    ∧ lines (decode_utf8 data) =
        [ ""; "---"; "title: " ++ space_name; "emoji: 😻"; "colorFrom: red";
          "colorTo: blue"; "sdk: docker"; "app_port: 3000"; "pinned: false";
          "---"; documentation_line ]
    ∧ front_matter (lines (decode_utf8 data)) =
        Some ([""],
              [ ("title", space_name); ("emoji", "😻"); ("colorFrom", "red");
                ("colorTo", "blue"); ("sdk", "docker"); ("app_port", "3000");
                ("pinned", "false") ],
              [documentation_line]).
Proof.
  intros Hrun Hin.
  destruct (uploaded_readme c g p o w data Hrun Hin)
    as (space_name & Hgen & (Hlen & Halnum & _) & ->).
  exists space_name. rewrite decode_encode_utf8.
  rewrite (readme_lines space_name) by by apply alnum_no_line_feed.
  split_and!; [done..|]. apply readme_front_matter.
Qed.

(** C10.  In every run, the content uploaded as README.md begins with a
    line feed, and only then comes the opening delimiter: its first byte
    is a line feed, not a dash. *)
Theorem readme_leading_line_feed (c : Args.cmdline) (g : G) (p : P)
    (o : outcome unit) (w : world G P) (data : list Byte.byte) :
  run c g p = (o, w) →
  data ∈ uploaded "README.md" (trace w) →
  head data = Some Byte.x0a
  ∧ head data ≠ Some Byte.x2d
  ∧ encode_utf8 (nl ++ "---" ++ nl) `prefix_of` data.
Proof.
  intros Hrun Hin.
  destruct (uploaded_readme c g p o w data Hrun Hin) as (space_name & _ & _ & ->).
  split_and!; [reflexivity | discriminate |].
  eexists. reflexivity.
Qed.
End manifest_facts.

Lemma readme_spec_witness :
  ∃ space_name,
    generate_random_string 2 47%nat
    = (Ret space_name, rng (run minimal_cmdline 47%nat healthy).2)
    ∧ String.length space_name = 2%nat
    ∧ lines (decode_utf8 (encode_utf8 (readme_content "2V"))) =
        [ ""; "---"; "title: " ++ space_name; "emoji: 😻"; "colorFrom: red";
          "colorTo: blue"; "sdk: docker"; "app_port: 3000"; "pinned: false";
          "---"; documentation_line ]
    ∧ front_matter (lines (decode_utf8 (encode_utf8 (readme_content "2V")))) =
        Some ([""],
              [ ("title", space_name); ("emoji", "😻"); ("colorFrom", "red");
                ("colorTo", "blue"); ("sdk", "docker"); ("app_port", "3000");
                ("pinned", "false") ],
              [documentation_line]).
Proof.
  apply (readme_spec minimal_cmdline 47%nat healthy
           (run minimal_cmdline 47%nat healthy).1).
  - vm_compute. reflexivity.
  - vm_compute. constructor.
Defined.

Lemma readme_leading_line_feed_witness :
  head (encode_utf8 (readme_content "2V")) = Some Byte.x0a
  ∧ head (encode_utf8 (readme_content "2V")) ≠ Some Byte.x2d
  ∧ encode_utf8 (nl ++ "---" ++ nl) `prefix_of` encode_utf8 (readme_content "2V").
Proof.
  apply (readme_leading_line_feed minimal_cmdline 47%nat healthy
           (run minimal_cmdline 47%nat healthy).1
           (run minimal_cmdline 47%nat healthy).2).
  - vm_compute. reflexivity.
  - vm_compute. constructor.
Defined.

(** ** Failures *)

Section failure_facts.
Context {G : Type} `{!Rng G} {P : Type} `{!HfApi P}.

(** C6.  With an empty access token, the run ends with a non-zero status
    after one diagnostic and nothing else: the client is not built, no call
    is made, and the platform and the generator are left untouched.  When
    the other required options are present, the diagnostic is the line
    printed by the script and the status is 1. *)
Theorem empty_token_spec (c : Args.cmdline) (g : G) (p : P)
    (o : outcome unit) (w : world G P) :
  Args.opt_token c = Some "" →
  run c g p = (o, w) →
  exit_status o ≠ 0
  ∧ (∃ d, trace w = [d] ∧ is_diagnostic d = true)
  ∧ hub w = p ∧ rng w = g
  ∧ (∀ args, Args.parse_args c = inr args →
             o = Exit 1 ∧ trace w = [Stdout "Token 不能为空"]).
Proof.
  intros Htok [(missing & Hparse & -> & ->) | (args & Hparse & Hrun)]%run_total.
  { split_and!; [done|by eexists|done|done|].
    intros args Hargs. by rewrite Hparse in Hargs. }
  destruct (parse_args_inr c args Hparse) as (t & gt & pw & Ht & _ & _ & Heq).
  assert (Args.token args = "") as Hempty.
  { rewrite Heq. cbn. congruence. }
  inversion Hrun; subst o w; try done.
  split_and!; [done|by eexists|done|done|].
  intros args' Hargs. by rewrite Hparse in Hargs.
Qed.

Lemma provision_no_whoami args repoid space_name (p1 p' : P) o calls r :
  provision args repoid space_name p1 o p' calls → Whoami r ∉ calls.
Proof.
  inversion 1; subst; intros Hin; explicit_elem_of Hin.
Qed.

(** C7.  When the identity lookup answers without a name, or with an empty
    one, the run prints a diagnostic and exits with status 1, and the
    trace holds the construction of the client, the lookup and the
    diagnostic only: no creation and no upload. *)
Theorem missing_name_spec (c : Args.cmdline) (g : G) (p : P)
    (o : outcome unit) (w : world G P) (user_info : gmap string string) :
  run c g p = (o, w) →
  Whoami (inr user_info) ∈ trace w →
  user_info !! "name" = None ∨ user_info !! "name" = Some "" →
  o = Exit 1
  ∧ exit_status o ≠ 0
  ∧ (∃ token, trace w = [NewHfApi token; Whoami (inr user_info);
                         Stdout "未获取到用户名信息，程序退出。"])
  ∧ creations (trace w) = []
  ∧ uploads (trace w) = [].
Proof.
  intros [(missing & _ & _ & ->) | (args & _ & Hrun)]%run_total Hin Hname.
  { apply list_elem_of_singleton in Hin. done. }
  inversion Hrun as [| |user_info' p1 _ Hwho Hfalse
                       |user_info' p1 name space_name g1 o' p' calls
                          _ Hwho Hlook Hne _ _ Hprov]; subst; cbn in Hin.
  - apply list_elem_of_singleton in Hin. done.
  - explicit_elem_of Hin.
  - apply elem_of_cons in Hin as [?|Hin]; [done|].
    apply elem_of_cons in Hin as [[= ->]|Hin].
    + split_and!; [done|done|by eexists|done|done].
    + apply list_elem_of_singleton in Hin. done.
  - apply elem_of_cons in Hin as [?|Hin]; [done|].
    apply elem_of_cons in Hin as [[= ->]|Hin].
    + destruct Hname as [Hname|Hname]; rewrite Hname in Hlook; congruence.
    + by eapply provision_no_whoami in Hin.
Qed.
End failure_facts.

Lemma empty_token_spec_witness :
  Args.opt_token (with_token (Some "") minimal_cmdline) = Some ""
  ∧ exit_status (run (with_token (Some "") minimal_cmdline) 47%nat healthy).1 ≠ 0
  ∧ (∃ d, trace (run (with_token (Some "") minimal_cmdline) 47%nat healthy).2 = [d]
          ∧ is_diagnostic d = true)
  ∧ hub (run (with_token (Some "") minimal_cmdline) 47%nat healthy).2 = healthy
  ∧ rng (run (with_token (Some "") minimal_cmdline) 47%nat healthy).2 = 47%nat
  ∧ (run (with_token (Some "") minimal_cmdline) 47%nat healthy).1 = Exit 1
  ∧ trace (run (with_token (Some "") minimal_cmdline) 47%nat healthy).2
    = [Stdout "Token 不能为空"].
Proof.
  split; [reflexivity|].
  assert (run (with_token (Some "") minimal_cmdline) 47%nat healthy
          = ((run (with_token (Some "") minimal_cmdline) 47%nat healthy).1,
             (run (with_token (Some "") minimal_cmdline) 47%nat healthy).2))
    as Hrun by (vm_compute; reflexivity).
  destruct (empty_token_spec (with_token (Some "") minimal_cmdline) 47%nat healthy
              _ _ eq_refl Hrun)
    as (Hstatus & Hdiag & Hhub & Hrng & Hline).
  split_and!; [exact Hstatus | exact Hdiag | exact Hhub | exact Hrng | |];
    eapply Hline; reflexivity.
Defined.

Example empty_token_run :
  run (with_token (Some "") minimal_cmdline) 47%nat healthy
  = (Exit 1, World 47%nat healthy [Stdout "Token 不能为空"]).
Proof. reflexivity. Qed.

Lemma missing_name_spec_witness :
  Whoami (inr ∅) ∈ trace (run minimal_cmdline 47%nat anonymous).2
  ∧ (∅ : gmap string string) !! "name" = None
  ∧ (run minimal_cmdline 47%nat anonymous).1 = Exit 1
  ∧ exit_status (run minimal_cmdline 47%nat anonymous).1 ≠ 0
  ∧ (∃ token, trace (run minimal_cmdline 47%nat anonymous).2
              = [NewHfApi token; Whoami (inr ∅);
                 Stdout "未获取到用户名信息，程序退出。"])
  ∧ creations (trace (run minimal_cmdline 47%nat anonymous).2) = []
  ∧ uploads (trace (run minimal_cmdline 47%nat anonymous).2) = [].
Proof.
  assert (Whoami (inr ∅) ∈ trace (run minimal_cmdline 47%nat anonymous).2)
    as Hin by (right; left).
  split; [exact Hin|]. split; [reflexivity|].
  apply (missing_name_spec minimal_cmdline 47%nat anonymous
           (run minimal_cmdline 47%nat anonymous).1
           (run minimal_cmdline 47%nat anonymous).2 ∅).
  - vm_compute. reflexivity.
  - exact Hin.
  - left. reflexivity.
Defined.

Example empty_name_run :
  (run minimal_cmdline 47%nat unnamed).1 = Exit 1
  ∧ trace (run minimal_cmdline 47%nat unnamed).2
    = [NewHfApi "T"; Whoami (inr {[ "name" := "" ]});
       Stdout "未获取到用户名信息，程序退出。"].
Proof. by split. Qed.

(** ** The order of the calls *)

Section order_facts.
Context {G : Type} `{!Rng G} {P : Type} `{!HfApi P}.

Lemma provision_order args repoid space_name (p1 p' : P) o calls :
  provision args repoid space_name p1 o p' calls →
  (∀ rid rt sdk secs e,
     CreateRepo rid rt sdk secs (Some e) ∈ calls →
     o = Raise e ∧ uploads calls = [])
  ∧ uploads_follow_creation calls
  ∧ upload_paths calls `prefix_of` ["README.md"; "Dockerfile"].
Proof.
  inversion 1; subst; split_and!.
  all: try (intros rid rt sdk secs e' Hin; by explicit_elem_of Hin).
  all: try (intros before ev after Heq Hup;
            repeat (destruct before as [|? before]; simplify_eq/=;
                    try (eexists _, _, _, _; left)); done).
  - by exists ["README.md"; "Dockerfile"].
  - by exists ["Dockerfile"].
  - by exists [].
  - by exists [].
Qed.

(** C8.  In every run: a creation call that raises ends the run with that
    exception and no upload call is made; every upload call comes after a
    creation call that returned; and the uploads are README.md, then
    Dockerfile (or a beginning of that sequence). *)
Theorem creation_before_uploads (c : Args.cmdline) (g : G) (p : P)
    (o : outcome unit) (w : world G P) :
  run c g p = (o, w) →
  (∀ rid rt sdk secs e,
     CreateRepo rid rt sdk secs (Some e) ∈ trace w →
     o = Raise e ∧ uploads (trace w) = [])
  ∧ uploads_follow_creation (trace w)
  ∧ upload_paths (trace w) `prefix_of` ["README.md"; "Dockerfile"].
Proof.
  intros [(missing & _ & _ & ->) | (args & _ & Hrun)]%run_total.
  { split_and!.
    - intros rid rt sdk secs e Hin. by apply list_elem_of_singleton in Hin.
    - intros [|? [|? before]] ev after Heq Hup; by simplify_eq/=.
    - apply prefix_nil. }
  inversion Hrun as [| | |user_info p1 name space_name g1 o' p' calls
                           _ _ _ _ _ _ Hprov]; subst; cbn [trace].
  1-3: split_and!;
    [ intros rid rt sdk secs e' Hin; by explicit_elem_of Hin
    | intros before ev after Heq Hup;
      repeat (destruct before as [|? before]; simplify_eq/=); done
    | apply prefix_nil ].
  destruct (provision_order _ _ _ _ _ _ _ Hprov) as (Hraise & Hfollow & Hpaths).
  split_and!.
  - intros rid rt sdk secs e Hin. explicit_elem_of Hin.
    by apply Hraise in Hin.
  - intros [|? [|? before]] ev after Heq Hup; simplify_eq/=.
    destruct (Hfollow before ev after eq_refl Hup) as (rid & rt & sdk & secs & Hin).
    exists rid, rt, sdk, secs. by do 2 right.
  - exact Hpaths.
Qed.
End order_facts.

Lemma creation_before_uploads_witness :
  CreateRepo "alice/2V" "space" "docker" (secrets minimal_args "zxlwq/music" "main")
    (Some (HubError "409 Conflict"))
    ∈ trace (run minimal_cmdline 47%nat conflicting).2
  ∧ (run minimal_cmdline 47%nat conflicting).1 = Raise (HubError "409 Conflict")
  ∧ uploads (trace (run minimal_cmdline 47%nat conflicting).2) = []
  ∧ uploads_follow_creation (trace (run minimal_cmdline 47%nat conflicting).2)
  ∧ upload_paths (trace (run minimal_cmdline 47%nat conflicting).2)
      `prefix_of` ["README.md"; "Dockerfile"].
Proof.
  assert (CreateRepo "alice/2V" "space" "docker"
            (secrets minimal_args "zxlwq/music" "main")
            (Some (HubError "409 Conflict"))
            ∈ trace (run minimal_cmdline 47%nat conflicting).2)
    as Hin by (right; right; left).
  assert (run minimal_cmdline 47%nat conflicting
          = ((run minimal_cmdline 47%nat conflicting).1,
             (run minimal_cmdline 47%nat conflicting).2))
    as Hrun by (vm_compute; reflexivity).
  destruct (creation_before_uploads minimal_cmdline 47%nat conflicting _ _ Hrun)
    as (Hraise & Hfollow & Hpaths).
  destruct (Hraise _ _ _ _ _ Hin) as [Hout Hnone].
  split_and!; [exact Hin | exact Hout | exact Hnone | exact Hfollow | exact Hpaths].
Defined.

Example refused_creation_run :
  (run minimal_cmdline 47%nat conflicting).1 = Raise (HubError "409 Conflict")
  ∧ creations (trace (run minimal_cmdline 47%nat conflicting).2)
    = [("alice/2V", secrets minimal_args "zxlwq/music" "main")]
  ∧ uploads (trace (run minimal_cmdline 47%nat conflicting).2) = [].
Proof. vm_compute. by split_and!. Qed.

Example failed_dockerfile_run :
  (run minimal_cmdline 47%nat flaky).1 = Raise (HubError "502")
  ∧ upload_paths (trace (run minimal_cmdline 47%nat flaky).2)
    = ["README.md"; "Dockerfile"]
  ∧ exit_status (run minimal_cmdline 47%nat flaky).1 = 1.
Proof. vm_compute. by split_and!. Qed.

(** * Further properties of the script *)

(** The cases of a run: the parser refuses; or the body runs and stops at the
    token check, at the identity lookup, at the name check, or in one of the
    four ways the provisioning can go. *)
Ltac run_cases Hrun :=
  apply run_total in Hrun
    as [(?missing & ?Hparse & -> & ->) | (?args & ?Hparse & Hrun)];
  [| inversion Hrun
       as [?Htok | ?e ?p1 ?Htok ?Hwho | ?user_info ?p1 ?Htok ?Hwho ?Hname
           | ?user_info ?p1 ?name ?space_name ?g1 ?o' ?p' ?calls
               ?Htok ?Hwho ?Hname ?Hne ?Hgen ?Hwf ?Hprov]; subst;
     [ | | | inversion Hprov; subst ] ].

(** ** The command line *)

Section cmdline_facts.
Context {G : Type} `{!Rng G} {P : Type} `{!HfApi P}.

(** X2.  Giving an optional option with an empty value is the same as
    leaving it out: the run from the command line in which every absent
    optional option is filled in with the empty string is the run from the
    command line itself (same outcome, same trace, same final states). *)
Theorem empty_optional_is_absent (c : Args.cmdline) (g : G) (p : P) :
  run (fill_optional c) g p = run c g p.
Proof.
  unfold run, main, Args.parse_args, Args.missing_required, fill_optional.
  cbn [Args.opt_token Args.opt_git_token Args.opt_password Args.opt_image
       Args.opt_git_url Args.opt_git_repo Args.opt_git_branch Args.opt_webdav_url
       Args.opt_webdav_user Args.opt_webdav_pass Args.opt_account_id
       Args.opt_access_key_id Args.opt_secret_access_key].
  destruct (Args.opt_token c) as [t|], (Args.opt_git_token c) as [gt|],
    (Args.opt_password c) as [pw|]; try reflexivity.
  unfold script, resolve_image, resolve_git_repo, resolve_git_branch, secrets. cbn.
  destruct (Args.opt_git_repo c) as [[|? ?]|], (Args.opt_git_branch c) as [[|? ?]|];
    reflexivity.
Qed.

(** X3.  The upstream repository and branch passed as secrets resolve like
    the image: an absent or empty option gives the defaults zxlwq/music and
    main, a non-empty option gives exactly the supplied string. *)
Theorem resolve_git_spec (c : Args.cmdline) (args : Args.Namespace) :
  Args.parse_args c = inr args →
  (Args.opt_git_repo c = None ∨ Args.opt_git_repo c = Some "" →
   resolve_git_repo args = "zxlwq/music")
  ∧ (∀ s, Args.opt_git_repo c = Some s → s ≠ "" → resolve_git_repo args = s)
  ∧ (Args.opt_git_branch c = None ∨ Args.opt_git_branch c = Some "" →
     resolve_git_branch args = "main")
  ∧ (∀ s, Args.opt_git_branch c = Some s → s ≠ "" → resolve_git_branch args = s).
Proof.
  intros (t & gt & pw & _ & _ & _ & ->)%parse_args_inr.
  unfold resolve_git_repo, resolve_git_branch. cbn [Args.git_repo Args.git_branch].
  split_and!.
  - by intros [-> | ->].
  - intros s -> Hs. cbn. by apply or_str_nonempty.
  - by intros [-> | ->].
  - intros s -> Hs. cbn. by apply or_str_nonempty.
Qed.
End cmdline_facts.


Lemma resolve_git_spec_witness :
  (Args.parse_args minimal_cmdline = inr minimal_args
   ∧ resolve_git_repo minimal_args = "zxlwq/music"
   ∧ resolve_git_branch minimal_args = "main")
  ∧ (∃ args, Args.parse_args full_cmdline = inr args
             ∧ resolve_git_repo args = "me/fork"
             ∧ resolve_git_branch args = "dev").
Proof.
  split.
  - destruct (resolve_git_spec minimal_cmdline minimal_args eq_refl)
      as (Hrepo & _ & Hbranch & _).
    split_and!; [reflexivity | apply Hrepo; left; reflexivity
                | apply Hbranch; left; reflexivity].
  - eexists. split; [reflexivity|].
    destruct (resolve_git_spec full_cmdline _ eq_refl) as (_ & Hrepo & _ & Hbranch).
    split; [apply (Hrepo "me/fork") | apply (Hbranch "dev")];
      (reflexivity || discriminate).
Defined.

(** ** How a run ends *)

Section ending_facts.
Context {G : Type} `{!Rng G} {P : Type} `{!HfApi P}.

(** X4.  When the identity lookup raises, the run ends with that exception
    (exit status 1) right after the lookup: the trace is the construction of
    the client and the lookup, nothing is created or uploaded, nothing is
    printed, and no random name is drawn. *)
Theorem whoami_raises_spec (c : Args.cmdline) (g : G) (p : P)
    (o : outcome unit) (w : world G P) (e : exn) :
  run c g p = (o, w) →
  Whoami (inl e) ∈ trace w →
  o = Raise e
  ∧ exit_status o = 1
  ∧ (∃ token, Args.opt_token c = Some token
              ∧ trace w = [NewHfApi token; Whoami (inl e)])
  ∧ rng w = g
  ∧ creations (trace w) = []
  ∧ uploads (trace w) = []
  ∧ stdout_lines (trace w) = [].
Proof.
  intros Hrun Hin. run_cases Hrun; cbn [trace] in Hin; try (by explicit_elem_of Hin).
  explicit_elem_of Hin. apply list_elem_of_singleton in Hin. simplify_eq.
  destruct (parse_args_inr c args Hparse) as (t & gt & pw & Ht & _ & _ & ->).
  split_and!; try done. by exists t.
Qed.

(** X5.  Nothing is caught and nothing is retried: an event that records a
    raised exception is the last event of the run, and the run ends with
    that exception.  Hence a run that returns, or that exits through
    [sys.exit], holds no call that raised. *)
Theorem exception_is_last (c : Args.cmdline) (g : G) (p : P)
    (o : outcome unit) (w : world G P) :
  run c g p = (o, w) →
  (∀ ev e, ev ∈ trace w → raised_of ev = Some e →
           last (trace w) = Some ev ∧ o = Raise e)
  ∧ ((o = Ret tt ∨ ∃ code, o = Exit code) →
     Forall (λ ev, raised_of ev = None) (trace w)).
Proof.
  intros Hrun. run_cases Hrun; cbn [trace]; split.
  all: try (intros ev e' Hin Hraised;
            repeat (apply elem_of_cons in Hin as [->|Hin];
                    [cbn in Hraised; by simplify_eq|]);
            by apply elem_of_nil in Hin).
  all: try (intros _; by repeat constructor).
  all: by intros [[=] | [code [=]]].
Qed.

(** X6.  The client is used in one fixed order and every operation at most
    once: the operations of a run are a beginning of the sequence
    construction, identity lookup, creation, upload of README.md, upload of
    Dockerfile. *)
Theorem calls_in_fixed_order (c : Args.cmdline) (g : G) (p : P)
    (o : outcome unit) (w : world G P) :
  run c g p = (o, w) →
  omap call_name (trace w)
    `prefix_of` ["HfApi"; "whoami"; "create_repo";
                 "upload_file README.md"; "upload_file Dockerfile"].
Proof.
  intros Hrun. run_cases Hrun; cbn [trace]; by eexists.
Qed.

(** The cases of a run of the body, from a namespace the parser returned. *)
Ltac script_cases Hrun :=
  apply script_run_total in Hrun;
  inversion Hrun
    as [?Htok | ?e ?p1 ?Htok ?Hwho | ?user_info ?p1 ?Htok ?Hwho ?Hname
        | ?user_info ?p1 ?name ?space_name ?g1 ?o' ?p' ?calls
            ?Htok ?Hwho ?Hname ?Hne ?Hgen ?Hwf ?Hprov]; subst;
  [ | | | inversion Hprov; subst ].

(** X7.  Once the options are parsed, what the body prints on standard
    output follows from how it ends: when it returns it has printed one
    line, the success line with the descriptor its three calls targeted;
    when it exits, the status is 1 and it has printed one line, the first
    diagnostic if the token is empty and the second otherwise; when it ends
    with an exception it has printed nothing. *)
Theorem stdout_lines_spec (args : Args.Namespace) (g : G) (p : P)
    (o : outcome unit) (w : world G P) :
  script args (World g p []) = (o, w) →
  match o with
  | Ret _ =>
      ∃ repoid, stdout_lines (trace w) = ["Space 创建成功: " ++ repoid]
                ∧ call_targets (trace w) = [repoid; repoid; repoid]
  | Exit code =>
      code = 1
      ∧ ((Args.token args = "" ∧ stdout_lines (trace w) = ["Token 不能为空"])
         ∨ (Args.token args ≠ ""
            ∧ stdout_lines (trace w) = ["未获取到用户名信息，程序退出。"]))
  | Raise _ => stdout_lines (trace w) = []
  end.
Proof.
  intros Hrun. script_cases Hrun; cbn [trace]; try reflexivity.
  - split; [done|]. by left.
  - split; [done|]. by right.
  - by eexists.
Qed.

(** X8.  Once the options are parsed, the exit status of the body is 0 or
    1.  It is 0 exactly when the body returns, and exactly when the five
    client operations all took place and none of them raised. *)
Theorem exit_status_spec (args : Args.Namespace) (g : G) (p : P)
    (o : outcome unit) (w : world G P) :
  script args (World g p []) = (o, w) →
  (exit_status o = 0 ∨ exit_status o = 1)
  ∧ (exit_status o = 0 ↔ o = Ret tt)
  ∧ (exit_status o = 0
     ↔ omap call_name (trace w)
       = ["HfApi"; "whoami"; "create_repo";
          "upload_file README.md"; "upload_file Dockerfile"]
       ∧ Forall (λ ev, raised_of ev = None) (trace w)).
Proof.
  intros Hrun. script_cases Hrun; cbn [trace exit_status];
    (split_and!; [auto | done |]).
  all: split;
    [ first [ done | intros _; split; [reflexivity | by repeat constructor] ]
    | first
        [ done
        | intros [Hnames Hnone]; vm_compute in Hnames; first
            [ discriminate Hnames
            | repeat (apply Forall_cons in Hnone as [? Hnone]); done ] ] ].
Qed.
End ending_facts.

(** ** Failed uploads, and what the calls carry *)

Section call_facts.
Context {G : Type} `{!Rng G} {P : Type} `{!HfApi P}.

(** X9.  When an upload raises, the run ends with that exception (exit
    status 1) and prints nothing; the space has been created before and is
    not removed.  If it is the upload of README.md, the Dockerfile is never
    sent; if it is the upload of the Dockerfile, the README.md has been sent
    and stays: the space is left half configured. *)
Theorem upload_failure_spec (c : Args.cmdline) (g : G) (p : P)
    (o : outcome unit) (w : world G P)
    (rid path : string) (data : list Byte.byte) (rt : string) (e : exn) :
  run c g p = (o, w) →
  UploadFile rid path data rt (Some e) ∈ trace w →
  o = Raise e
  ∧ exit_status o = 1
  ∧ stdout_lines (trace w) = []
  ∧ (∃ secs, map fst (creations (trace w)) = [rid]
             ∧ CreateRepo rid "space" "docker" secs None ∈ trace w)
  ∧ ((path = "README.md" ∧ upload_paths (trace w) = ["README.md"])
     ∨ (path = "Dockerfile"
        ∧ upload_paths (trace w) = ["README.md"; "Dockerfile"]
        ∧ ∃ readme, UploadFile rid "README.md" readme "space" None ∈ trace w)).
Proof.
  intros Hrun Hin. run_cases Hrun; cbn [trace] in *; try (by explicit_elem_of Hin).
  - explicit_elem_of Hin. apply list_elem_of_singleton in Hin. simplify_eq.
    split_and!; try done.
    + eexists. split; [reflexivity|]. do 2 right. left.
    + left. by split.
  - explicit_elem_of Hin. apply list_elem_of_singleton in Hin. simplify_eq.
    split_and!; try done.
    + eexists. split; [reflexivity|]. do 2 right. left.
    + right. split_and!; [done..|]. eexists. do 3 right. left.
Qed.

Lemma uploaded_dockerfile c g p o (w : world G P) data :
  run c g p = (o, w) →
  data ∈ uploaded "Dockerfile" (trace w) →
  data = encode_utf8
           (dockerfile_content (or_str (default "" (Args.opt_image c)) default_image)).
Proof.
  intros [(missing & _ & _ & ->) | (args & Hparse & Hrun)]%run_total Hin.
  { by apply elem_of_nil in Hin. }
  destruct (parse_args_inr c args Hparse) as (t & gt & pw & _ & _ & _ & Hargs).
  inversion Hrun as [| | |user_info p1 name space_name g1 o' p' calls
                           _ _ _ _ _ _ Hprov]; subst o w;
    try (by apply elem_of_nil in Hin).
  rewrite (provision_dockerfile _ _ _ _ _ _ _ _ Hprov Hin).
  by rewrite Hargs.
Qed.

(** X10.  The uploaded files carry nothing of the command line but the
    image: two runs from the same generator state upload the same README.md
    bytes whatever their options and platforms, and two runs with the same
    image option upload the same Dockerfile bytes.  In particular no token,
    password or storage credential is ever written into a file of the
    space. *)
Theorem uploads_depend_on_name_and_image (c1 c2 : Args.cmdline) (g : G) (g' : G)
    (p1 p2 : P) (o1 o2 : outcome unit) (w1 w2 : world G P) :
  run c1 g p1 = (o1, w1) →
  run c2 g' p2 = (o2, w2) →
  (g = g' →
   ∀ d1 d2, d1 ∈ uploaded "README.md" (trace w1) →
            d2 ∈ uploaded "README.md" (trace w2) → d1 = d2)
  ∧ (Args.opt_image c1 = Args.opt_image c2 →
     ∀ d1 d2, d1 ∈ uploaded "Dockerfile" (trace w1) →
              d2 ∈ uploaded "Dockerfile" (trace w2) → d1 = d2).
Proof.
  intros Hrun1 Hrun2. split.
  - intros <- d1 d2 Hin1 Hin2.
    destruct (uploaded_readme c1 g p1 o1 w1 d1 Hrun1 Hin1) as (s1 & Hgen1 & _ & ->).
    destruct (uploaded_readme c2 g p2 o2 w2 d2 Hrun2 Hin2) as (s2 & Hgen2 & _ & ->).
    rewrite Hgen1 in Hgen2. by injection Hgen2 as -> _.
  - intros Himage d1 d2 Hin1 Hin2.
    rewrite (uploaded_dockerfile c1 g p1 o1 w1 d1 Hrun1 Hin1).
    rewrite (uploaded_dockerfile c2 g' p2 o2 w2 d2 Hrun2 Hin2).
    by rewrite Himage.
Qed.

(** X11.  Every creation or upload call targets a descriptor made of a
    non-empty account name, a slash and a name of exactly two ASCII letters
    or digits of which at least one is a letter. *)
Theorem descriptor_shape (c : Args.cmdline) (g : G) (p : P)
    (o : outcome unit) (w : world G P) (rid : string) :
  run c g p = (o, w) →
  rid ∈ call_targets (trace w) →
  ∃ name space_name,
    rid = name ++ "/" ++ space_name
    ∧ name ≠ ""
    ∧ String.length space_name = 2%nat
    ∧ Forall (λ ch, is_alnum ch = true) (list_ascii_of_string space_name)
    ∧ Exists (λ ch, is_letter ch = true) (list_ascii_of_string space_name).
Proof.
  intros [(missing & _ & _ & ->) | (args & _ & Hrun)]%run_total Hin.
  { by apply elem_of_nil in Hin. }
  inversion Hrun as [| | |user_info p1 name space_name g1 o' p' calls
                           _ _ _ Hne _ (Hlen & Halnum & Hletter) Hprov]; subst o w;
    try (by apply elem_of_nil in Hin).
  exists name, space_name. split_and!; try done.
  cbn in Hin. apply provision_targets in Hprov.
  by eapply Forall_forall in Hprov.
Qed.

(** X12.  The random generator is advanced exactly when a creation call is
    attempted, and then by the single draw of the two-character name: a run
    that stops earlier leaves the generator as it found it. *)
Theorem generator_used_for_the_name_only (c : Args.cmdline) (g : G) (p : P)
    (o : outcome unit) (w : world G P) :
  run c g p = (o, w) →
  (creations (trace w) = [] → rng w = g)
  ∧ (creations (trace w) ≠ [] →
     ∃ space_name, generate_random_string 2 g = (Ret space_name, rng w)
                   ∧ map fst (creations (trace w)) ≠ []
                   ∧ Forall (λ rid, ∃ name, rid = name ++ "/" ++ space_name)
                       (map fst (creations (trace w)))).
Proof.
  intros Hrun. run_cases Hrun; cbn [trace rng]; split; try done.
  all: intros _; eexists; split; [eassumption|]; split; [done|].
  all: repeat constructor; by eexists.
Qed.

(** X13.  What the calls carry, in every run and also when they raise: the
    client is built with the supplied, non-empty token; a creation declares
    a space with the docker SDK and attaches the eleven secrets, the
    required ones with the supplied values; an upload writes README.md or
    Dockerfile into a space. *)
Theorem call_arguments_spec (c : Args.cmdline) (g : G) (p : P)
    (o : outcome unit) (w : world G P) :
  run c g p = (o, w) →
  (∀ t, NewHfApi t ∈ trace w → Args.opt_token c = Some t ∧ t ≠ "")
  ∧ (∀ rid rt sdk secs r,
       CreateRepo rid rt sdk secs r ∈ trace w →
       rt = "space" ∧ sdk = "docker"
       ∧ map key secs =
           ["GIT_REPO"; "GIT_TOKEN"; "GIT_BRANCH"; "GIT_URL"; "PASSWORD";
            "WEBDAV_URL"; "WEBDAV_USER"; "WEBDAV_PASS"; "ACCOUNT_ID";
            "ACCESS_KEY_ID"; "SECRET_ACCESS_KEY"]
       ∧ (∃ git_token, Args.opt_git_token c = Some git_token
                       ∧ Secret "GIT_TOKEN" git_token ∈ secs)
       ∧ (∃ password, Args.opt_password c = Some password
                      ∧ Secret "PASSWORD" password ∈ secs))
  ∧ (∀ rid path data rt r,
       UploadFile rid path data rt r ∈ trace w →
       rt = "space" ∧ (path = "README.md" ∨ path = "Dockerfile")).
Proof.
  intros Hrun. run_cases Hrun; cbn [trace].
  1:{ split_and!; intros;
        match goal with Hin : _ ∈ _ |- _ => by explicit_elem_of Hin end. }
  all: destruct (parse_args_inr c args Hparse)
         as (t & gt & pw & Ht & Hgt & Hpw & ->); cbn [Args.token] in *.
  all: split_and!;
    [ intros t' Hin; by explicit_elem_of Hin
    | intros rid rt sdk secs r Hin;
      repeat (apply elem_of_cons in Hin as [Heq|Hin];
              [ first
                  [ done
                  | simplify_eq; split_and!;
                    [ done | done | done
                    | exists gt; split; [done|]; right; left
                    | exists pw; split; [done|]; do 4 right; left ] ] |]);
      by apply elem_of_nil in Hin
    | intros rid path data rt r Hin;
      repeat (apply elem_of_cons in Hin as [Heq|Hin];
              [ first [ done | simplify_eq; split; [done|]; auto ] |]);
      by apply elem_of_nil in Hin ].
Qed.
End call_facts.

(** ** The draws behind a generated name *)

(** X14.  A generated name is made of exactly the characters drawn: one
    letter drawn first from the 52 letters, then [length - 1] characters
    drawn from the 62 letters and digits, rearranged by the shuffle; none of
    the three steps raises.  For a length of 1 nothing is drawn after the
    letter, which is the whole result. *)
Theorem generate_random_string_draws {G : Type} `{!Rng G} (length : Z) (g : G) :
  1 <= length →
  ∃ m g1 r g2 s g3,
    choice ascii_letters g = (Ret m, g1)
    ∧ choices (ascii_letters ++ digits)%list (length - 1) g1 = (Ret r, g2)
    ∧ shuffle (r ++ [m])%list g2 = (Ret (list_ascii_of_string s), g3)
    ∧ generate_random_string length g = (Ret s, g3)
    ∧ list_ascii_of_string s ≡ₚ (r ++ [m])%list
    ∧ m ∈ ascii_letters
    ∧ Forall (λ ch, ch ∈ (ascii_letters ++ digits)%list) r
    ∧ Z.of_nat (List.length r) = length - 1
    ∧ (length = 1 → s = String m "" ∧ g3 = g1).
Proof.
  intros Hge.
  destruct (choice_elem ascii_letters g) as (m & g1 & Hm & Hin); [done|].
  destruct (choices_nat_elem (ascii_letters ++ digits)%list
              (Z.to_nat (length - 1)) g1) as (r & g2 & Hr & Hlen & Hall); [done|].
  destruct (shuffle_perm (r ++ [m])%list g2) as (f & g3 & Hf & Hperm).
  exists m, g1, r, g2, (join f), g3. unfold join.
  rewrite list_ascii_of_string_of_list_ascii.
  split_and!; try done.
  - unfold generate_random_string.
    destruct (Z.ltb_spec length 1) as [?|_]; [lia|].
    unfold bind at 1. rewrite Hm.
    unfold bind at 1. unfold choices. rewrite Hr.
    unfold bind. by rewrite Hf.
  - rewrite Hlen. lia.
  - intros ->. cbn in Hr. injection Hr as <- <-.
    cbn in Hf. by injection Hf as <- <-.
Qed.

Lemma generate_random_string_draws_witness :
  (1 <= 5
   ∧ ∃ m g1 r g2 s g3,
       choice ascii_letters 61%nat = (Ret m, g1)
       ∧ choices (ascii_letters ++ digits)%list (5 - 1) g1 = (Ret r, g2)
       ∧ shuffle (r ++ [m])%list g2 = (Ret (list_ascii_of_string s), g3)
       ∧ generate_random_string 5 61%nat = (Ret s, g3)
       ∧ list_ascii_of_string s ≡ₚ (r ++ [m])%list
       ∧ m ∈ ascii_letters
       ∧ Forall (λ ch, ch ∈ (ascii_letters ++ digits)%list) r
       ∧ Z.of_nat (List.length r) = 5 - 1
       ∧ (5 = 1 → s = String m "" ∧ g3 = g1))
  ∧ (∃ m g1, choice ascii_letters 47%nat = (Ret m, g1)
             ∧ generate_random_string 1 47%nat = (Ret (String m ""), g1)).
Proof.
  split.
  - split; [lia|]. apply (generate_random_string_draws 5 61%nat). lia.
  - destruct (generate_random_string_draws 1 47%nat ltac:(lia))
      as (m & g1 & r & g2 & s & g3 & Hm & _ & _ & Hgen & _ & _ & _ & _ & Hone).
    destruct (Hone eq_refl) as [-> ->]. by exists m, g1.
Defined.

Example generate_1_from_47 : generate_random_string 1 47%nat = (Ret "V", 54%nat).
Proof. reflexivity. Qed.

(** ** The further properties at concrete runs *)

Lemma whoami_raises_spec_witness :
  Whoami (inl (HubError "401 Unauthorized"))
    ∈ trace (run minimal_cmdline 47%nat unreachable).2
  ∧ (run minimal_cmdline 47%nat unreachable).1 = Raise (HubError "401 Unauthorized")
  ∧ exit_status (run minimal_cmdline 47%nat unreachable).1 = 1
  ∧ (∃ token, Args.opt_token minimal_cmdline = Some token
              ∧ trace (run minimal_cmdline 47%nat unreachable).2
                = [NewHfApi token; Whoami (inl (HubError "401 Unauthorized"))])
  ∧ rng (run minimal_cmdline 47%nat unreachable).2 = 47%nat
  ∧ creations (trace (run minimal_cmdline 47%nat unreachable).2) = []
  ∧ uploads (trace (run minimal_cmdline 47%nat unreachable).2) = []
  ∧ stdout_lines (trace (run minimal_cmdline 47%nat unreachable).2) = [].
Proof.
  assert (Whoami (inl (HubError "401 Unauthorized"))
            ∈ trace (run minimal_cmdline 47%nat unreachable).2)
    as Hin by (right; left).
  split; [exact Hin|].
  apply (whoami_raises_spec minimal_cmdline 47%nat unreachable
           (run minimal_cmdline 47%nat unreachable).1
           (run minimal_cmdline 47%nat unreachable).2).
  - vm_compute. reflexivity.
  - exact Hin.
Defined.

Lemma exception_is_last_witness :
  (last (trace (run minimal_cmdline 47%nat conflicting).2)
   = Some (CreateRepo "alice/2V" "space" "docker"
             (secrets minimal_args "zxlwq/music" "main")
             (Some (HubError "409 Conflict")))
   ∧ (run minimal_cmdline 47%nat conflicting).1 = Raise (HubError "409 Conflict"))
  ∧ Forall (λ ev, raised_of ev = None) (trace (run minimal_cmdline 47%nat anonymous).2).
Proof.
  assert (run minimal_cmdline 47%nat conflicting
          = ((run minimal_cmdline 47%nat conflicting).1,
             (run minimal_cmdline 47%nat conflicting).2))
    as Hrun by (vm_compute; reflexivity).
  assert (run minimal_cmdline 47%nat anonymous
          = (Exit 1, (run minimal_cmdline 47%nat anonymous).2))
    as Hrun' by (vm_compute; reflexivity).
  destruct (exception_is_last minimal_cmdline 47%nat conflicting _ _ Hrun)
    as [Hlast _].
  destruct (exception_is_last minimal_cmdline 47%nat anonymous _ _ Hrun')
    as [_ Hnone].
  split.
  - apply Hlast; [right; right; left | reflexivity].
  - apply Hnone. right. by exists 1.
Defined.

Lemma calls_in_fixed_order_witness :
  omap call_name (trace (run minimal_cmdline 47%nat readonly).2)
    `prefix_of` ["HfApi"; "whoami"; "create_repo";
                 "upload_file README.md"; "upload_file Dockerfile"].
Proof.
  apply (calls_in_fixed_order minimal_cmdline 47%nat readonly
           (run minimal_cmdline 47%nat readonly).1).
  vm_compute. reflexivity.
Defined.

Example calls_of_readonly_run :
  omap call_name (trace (run minimal_cmdline 47%nat readonly).2)
  = ["HfApi"; "whoami"; "create_repo"; "upload_file README.md"].
Proof. vm_compute. reflexivity. Qed.

Lemma stdout_lines_spec_witness :
  (∃ repoid,
     stdout_lines (trace (script full_args (World 47%nat healthy [])).2)
     = ["Space 创建成功: " ++ repoid]
     ∧ call_targets (trace (script full_args (World 47%nat healthy [])).2)
       = [repoid; repoid; repoid])
  ∧ stdout_lines (trace (script full_args (World 47%nat readonly [])).2) = []
  ∧ (1 = 1
     ∧ ((Args.token empty_token_args = ""
         ∧ stdout_lines (trace (script empty_token_args (World 47%nat healthy [])).2)
           = ["Token 不能为空"])
        ∨ (Args.token empty_token_args ≠ ""
           ∧ stdout_lines (trace (script empty_token_args (World 47%nat healthy [])).2)
             = ["未获取到用户名信息，程序退出。"]))).
Proof.
  assert (script full_args (World 47%nat healthy [])
          = (Ret tt, (script full_args (World 47%nat healthy [])).2))
    as Hrun by (vm_compute; reflexivity).
  assert (script full_args (World 47%nat readonly [])
          = (Raise (HubError "403"), (script full_args (World 47%nat readonly [])).2))
    as Hrun' by (vm_compute; reflexivity).
  assert (script empty_token_args (World 47%nat healthy [])
          = (Exit 1, (script empty_token_args (World 47%nat healthy [])).2))
    as Hrun'' by (vm_compute; reflexivity).
  split; [|split].
  - exact (stdout_lines_spec full_args 47%nat healthy _ _ Hrun).
  - exact (stdout_lines_spec full_args 47%nat readonly _ _ Hrun').
  - exact (stdout_lines_spec empty_token_args 47%nat healthy _ _ Hrun'').
Defined.

Lemma exit_status_spec_witness :
  (exit_status (script full_args (World 47%nat healthy [])).1 = 0
   ∧ omap call_name (trace (script full_args (World 47%nat healthy [])).2)
     = ["HfApi"; "whoami"; "create_repo";
        "upload_file README.md"; "upload_file Dockerfile"]
   ∧ Forall (λ ev, raised_of ev = None)
       (trace (script full_args (World 47%nat healthy [])).2))
  ∧ (exit_status (script full_args (World 47%nat flaky [])).1 = 0
     ∨ exit_status (script full_args (World 47%nat flaky [])).1 = 1).
Proof.
  assert (script full_args (World 47%nat healthy [])
          = ((script full_args (World 47%nat healthy [])).1,
             (script full_args (World 47%nat healthy [])).2))
    as Hrun by (vm_compute; reflexivity).
  assert (script full_args (World 47%nat flaky [])
          = ((script full_args (World 47%nat flaky [])).1,
             (script full_args (World 47%nat flaky [])).2))
    as Hrun' by (vm_compute; reflexivity).
  destruct (exit_status_spec full_args 47%nat healthy _ _ Hrun)
    as (_ & Hzero & Hcalls).
  destruct (exit_status_spec full_args 47%nat flaky _ _ Hrun')
    as (Hstatus & _ & _).
  split; [|exact Hstatus].
  split; [apply Hzero; reflexivity | apply Hcalls, Hzero; reflexivity].
Defined.

Lemma upload_failure_spec_witness :
  ((run minimal_cmdline 47%nat flaky).1 = Raise (HubError "502")
   ∧ exit_status (run minimal_cmdline 47%nat flaky).1 = 1
   ∧ stdout_lines (trace (run minimal_cmdline 47%nat flaky).2) = []
   ∧ (∃ secs, map fst (creations (trace (run minimal_cmdline 47%nat flaky).2))
              = ["alice/2V"]
              ∧ CreateRepo "alice/2V" "space" "docker" secs None
                  ∈ trace (run minimal_cmdline 47%nat flaky).2)
   ∧ (("Dockerfile" = "README.md"
       ∧ upload_paths (trace (run minimal_cmdline 47%nat flaky).2) = ["README.md"])
      ∨ ("Dockerfile" = "Dockerfile"
         ∧ upload_paths (trace (run minimal_cmdline 47%nat flaky).2)
           = ["README.md"; "Dockerfile"]
         ∧ ∃ readme, UploadFile "alice/2V" "README.md" readme "space" None
                       ∈ trace (run minimal_cmdline 47%nat flaky).2)))
  ∧ upload_paths (trace (run minimal_cmdline 47%nat readonly).2) = ["README.md"].
Proof.
  split.
  - apply (upload_failure_spec minimal_cmdline 47%nat flaky
             (run minimal_cmdline 47%nat flaky).1
             (run minimal_cmdline 47%nat flaky).2
             "alice/2V" "Dockerfile"
             (encode_utf8 ("FROM ghcr.io/zxlwq/music:latest" ++ nl)) "space").
    + vm_compute. reflexivity.
    + do 4 right. left.
  - assert (run minimal_cmdline 47%nat readonly
            = ((run minimal_cmdline 47%nat readonly).1,
               (run minimal_cmdline 47%nat readonly).2))
      as Hrun by (vm_compute; reflexivity).
    destruct (upload_failure_spec minimal_cmdline 47%nat readonly _ _
                "alice/2V" "README.md" (encode_utf8 (readme_content "2V")) "space"
                (HubError "403") Hrun ltac:(do 3 right; left))
      as (_ & _ & _ & _ & [[_ Hpaths] | [Hpath _]]); [exact Hpaths | discriminate Hpath].
Defined.

Lemma uploads_depend_on_name_and_image_witness :
  (∀ d1 d2,
     d1 ∈ uploaded "README.md" (trace (run minimal_cmdline 47%nat healthy).2) →
     d2 ∈ uploaded "README.md" (trace (run full_cmdline 47%nat flaky).2) →
     d1 = d2)
  ∧ (∀ d1 d2,
       d1 ∈ uploaded "Dockerfile" (trace (run minimal_cmdline 47%nat healthy).2) →
       d2 ∈ uploaded "Dockerfile"
              (trace (run (with_token (Some "other") minimal_cmdline) 5%nat healthy).2) →
       d1 = d2).
Proof.
  assert (run minimal_cmdline 47%nat healthy
          = ((run minimal_cmdline 47%nat healthy).1,
             (run minimal_cmdline 47%nat healthy).2))
    as Hrun1 by (vm_compute; reflexivity).
  assert (run full_cmdline 47%nat flaky
          = ((run full_cmdline 47%nat flaky).1, (run full_cmdline 47%nat flaky).2))
    as Hrun2 by (vm_compute; reflexivity).
  assert (run (with_token (Some "other") minimal_cmdline) 5%nat healthy
          = ((run (with_token (Some "other") minimal_cmdline) 5%nat healthy).1,
             (run (with_token (Some "other") minimal_cmdline) 5%nat healthy).2))
    as Hrun3 by (vm_compute; reflexivity).
  split.
  - apply (proj1 (uploads_depend_on_name_and_image minimal_cmdline full_cmdline
                    47%nat 47%nat healthy flaky _ _ _ _ Hrun1 Hrun2)).
    reflexivity.
  - apply (proj2 (uploads_depend_on_name_and_image minimal_cmdline
                    (with_token (Some "other") minimal_cmdline)
                    47%nat 5%nat healthy healthy _ _ _ _ Hrun1 Hrun3)).
    reflexivity.
Defined.

Example same_readme_in_two_runs :
  uploaded "README.md" (trace (run minimal_cmdline 47%nat healthy).2)
  = uploaded "README.md" (trace (run full_cmdline 47%nat flaky).2)
  ∧ uploaded "README.md" (trace (run full_cmdline 47%nat flaky).2)
    = [encode_utf8 (readme_content "2V")].
Proof. vm_compute. by split. Qed.

Lemma descriptor_shape_witness :
  "alice/2V" ∈ call_targets (trace (run minimal_cmdline 47%nat healthy).2)
  ∧ ∃ name space_name,
      "alice/2V" = name ++ "/" ++ space_name
      ∧ name ≠ ""
      ∧ String.length space_name = 2%nat
      ∧ Forall (λ ch, is_alnum ch = true) (list_ascii_of_string space_name)
      ∧ Exists (λ ch, is_letter ch = true) (list_ascii_of_string space_name).
Proof.
  assert ("alice/2V" ∈ call_targets (trace (run minimal_cmdline 47%nat healthy).2))
    as Hin by (vm_compute; constructor).
  split; [exact Hin|].
  apply (descriptor_shape minimal_cmdline 47%nat healthy
           (run minimal_cmdline 47%nat healthy).1
           (run minimal_cmdline 47%nat healthy).2).
  - vm_compute. reflexivity.
  - exact Hin.
Defined.

Lemma generator_used_for_the_name_only_witness :
  rng (run minimal_cmdline 47%nat anonymous).2 = 47%nat
  ∧ ∃ space_name,
      generate_random_string 2 47%nat
      = (Ret space_name, rng (run minimal_cmdline 47%nat conflicting).2)
      ∧ map fst (creations (trace (run minimal_cmdline 47%nat conflicting).2)) ≠ []
      ∧ Forall (λ rid, ∃ name, rid = name ++ "/" ++ space_name)
          (map fst (creations (trace (run minimal_cmdline 47%nat conflicting).2))).
Proof.
  assert (run minimal_cmdline 47%nat anonymous
          = ((run minimal_cmdline 47%nat anonymous).1,
             (run minimal_cmdline 47%nat anonymous).2))
    as Hrun by (vm_compute; reflexivity).
  assert (run minimal_cmdline 47%nat conflicting
          = ((run minimal_cmdline 47%nat conflicting).1,
             (run minimal_cmdline 47%nat conflicting).2))
    as Hrun' by (vm_compute; reflexivity).
  split.
  - apply (proj1 (generator_used_for_the_name_only minimal_cmdline 47%nat anonymous
                    _ _ Hrun)).
    reflexivity.
  - apply (proj2 (generator_used_for_the_name_only minimal_cmdline 47%nat conflicting
                    _ _ Hrun')).
    vm_compute. discriminate.
Defined.

Lemma call_arguments_spec_witness :
  (Args.opt_token full_cmdline = Some "hf_T" ∧ "hf_T" ≠ "")
  ∧ (∃ secs,
       CreateRepo "alice/2V" "space" "docker" secs (Some (HubError "409 Conflict"))
         ∈ trace (run full_cmdline 47%nat conflicting).2
       ∧ map key secs =
           ["GIT_REPO"; "GIT_TOKEN"; "GIT_BRANCH"; "GIT_URL"; "PASSWORD";
            "WEBDAV_URL"; "WEBDAV_USER"; "WEBDAV_PASS"; "ACCOUNT_ID";
            "ACCESS_KEY_ID"; "SECRET_ACCESS_KEY"]
       ∧ (∃ git_token, Args.opt_git_token full_cmdline = Some git_token
                       ∧ Secret "GIT_TOKEN" git_token ∈ secs)
       ∧ (∃ password, Args.opt_password full_cmdline = Some password
                      ∧ Secret "PASSWORD" password ∈ secs)).
Proof.
  assert (run full_cmdline 47%nat conflicting
          = ((run full_cmdline 47%nat conflicting).1,
             (run full_cmdline 47%nat conflicting).2))
    as Hrun by (vm_compute; reflexivity).
  destruct (call_arguments_spec full_cmdline 47%nat conflicting _ _ Hrun)
    as (Hnew & Hcreate & _).
  split.
  - apply Hnew. left.
  - eexists.
    assert (CreateRepo "alice/2V" "space" "docker"
              [ Secret "GIT_REPO" "me/fork"; Secret "GIT_TOKEN" "G";
                Secret "GIT_BRANCH" "dev"; Secret "GIT_URL" "https://proxy.example";
                Secret "PASSWORD" "P"; Secret "WEBDAV_URL" "https://dav.example";
                Secret "WEBDAV_USER" "u"; Secret "WEBDAV_PASS" "w";
                Secret "ACCOUNT_ID" "acc"; Secret "ACCESS_KEY_ID" "kid";
                Secret "SECRET_ACCESS_KEY" "sak" ]
              (Some (HubError "409 Conflict"))
              ∈ trace (run full_cmdline 47%nat conflicting).2)
      as Hin by (do 2 right; left).
    split; [exact Hin|].
    destruct (Hcreate _ _ _ _ _ Hin) as (_ & _ & Hkeys & Hgt & Hpw).
    split_and!; [exact Hkeys | exact Hgt | exact Hpw].
Defined.

Example run_of_full_cmdline :
  creations (trace (run full_cmdline 47%nat healthy).2)
  = [("alice/2V",
      [ Secret "GIT_REPO" "me/fork"; Secret "GIT_TOKEN" "G";
        Secret "GIT_BRANCH" "dev"; Secret "GIT_URL" "https://proxy.example";
        Secret "PASSWORD" "P"; Secret "WEBDAV_URL" "https://dav.example";
        Secret "WEBDAV_USER" "u"; Secret "WEBDAV_PASS" "w";
        Secret "ACCOUNT_ID" "acc"; Secret "ACCESS_KEY_ID" "kid";
        Secret "SECRET_ACCESS_KEY" "sak" ])]
  ∧ map (λ d, lines (decode_utf8 d))
      (uploaded "Dockerfile" (trace (run full_cmdline 47%nat healthy).2))
    = [["FROM nginx:1.27"]].
Proof. vm_compute. by split. Qed.

Example fill_optional_of_minimal :
  Args.parse_args (fill_optional minimal_cmdline)
  = inr {| Args.token := "T"; Args.image := ""; Args.git_url := "";
           Args.git_repo := Some ""; Args.git_branch := Some "";
           Args.git_token := "G"; Args.password := "P";
           Args.webdav_url := ""; Args.webdav_user := ""; Args.webdav_pass := "";
           Args.account_id := ""; Args.access_key_id := "";
           Args.secret_access_key := "" |}
  ∧ run (fill_optional minimal_cmdline) 47%nat healthy
    = run minimal_cmdline 47%nat healthy.
Proof. by split. Qed.
